(** * sectoralarm.session: a shallow embedding of [src/sectoralarm/session.py]

    The module is a thin asynchronous client: a response validator
    ([_validate_response]), a short-date normaliser ([fix_date_short]) and a
    [Session] class with one method per API operation.

    Modelling conventions.
    - Python values coming from JSON are the inductive [json]; a Python
      [dict] is a [gmap string json] (Python's [==] on dicts ignores order).
    - Python [str] is Rocq's [string]; a character is a code point below 256.
      On that range the regular-expression class [\d] is exactly ['0'..'9']
      and [\s] is exactly the twelve code points of [is_space].
    - Exceptions are values of [exception]; a computation either returns or
      raises ([result]).  Code that reads the clock or talks to the server
      runs in the state monad [M] over [world].
    - [datetime.strptime], [datetime.replace], [datetime.isoformat] and
      [datetime.strftime] are CPython library code; they are modelled at the
      fixed format strings the source passes to them. *)

From Stdlib Require Import ZArith String Ascii List Lia.
From Stdlib Require Import Floats.SpecFloat.
From stdpp Require Import gmap strings list fin_maps.

Set Warnings "-register-all".
Open Scope string_scope.
Open Scope Z_scope.

(** ** Values, exceptions, results *)

Inductive json :=
| JNull
| JBool (b : bool)
| JInt (n : Z)
| JFloat (f : spec_float)
| JStr (s : string)
| JList (l : list json)
| JDict (d : gmap string json).

(** Python objects other than JSON values: what an attribute of the
    Session or of a response can hold.  [VMethod] is a bound method,
    [VClient] an open aiohttp.ClientSession. *)
Inductive pyval :=
| VNone
| VInt (n : Z)
| VStr (s : string)
| VMethod (name : string)
| VClient (handle : nat).

(** The exceptions the module can raise or let through; the messages of
    the built-in ones are abbreviated.  [ResponseError] is the only class
    of the module that is ever instantiated; its two fields are
    [status_code] and [text] (the JSON-decoded body).  [ExternalError]
    stands for whatever the HTTP transport or the JSON decoder raises
    (aiohttp.ClientError, json.JSONDecodeError, ...), tagged with its class
    name. *)
Inductive exception :=
| ValueError (msg : string)
| TypeError (msg : string)
| KeyError (key : string)
| AttributeError (name : string)
| UnboundLocalError (var : string)
| RecursionError
| ResponseError (status_code : pyval) (text : json)
| ExternalError (cls : string) (msg : string).

Definition exception_class (e : exception) : string :=
  match e with
  | ValueError _ => "ValueError"
  | TypeError _ => "TypeError"
  | KeyError _ => "KeyError"
  | AttributeError _ => "AttributeError"
  | UnboundLocalError _ => "UnboundLocalError"
  | RecursionError => "RecursionError"
  | ResponseError _ _ => "ResponseError"
  | ExternalError cls _ => cls
  end.

(** The strings an exception carries in its arguments. *)
Definition exception_args (e : exception) : list string :=
  match e with
  | ValueError m | TypeError m => [m]
  | KeyError k => [k]
  | AttributeError n => [n]
  | UnboundLocalError v => [v]
  | RecursionError => []
  | ResponseError _ _ => []
  | ExternalError _ m => [m]
  end.

Inductive result (A : Type) :=
| Return (a : A)
| Raise (e : exception).
Arguments Return {A} a.
Arguments Raise {A} e.

(** ** Regular expressions, as CPython's backtracking matcher runs them

    [re_run r s] lists every way [r] matches a prefix of [s], in the order
    the backtracking engine tries them (alternatives left to right, [+]
    greedy).  [re.match] returns the first one. *)

Inductive regex :=
| RChar (c : ascii)
| RClass (p : ascii -> bool)
| RCat (r1 r2 : regex)
| RAlt (r1 r2 : regex)
| RPlus (p : ascii -> bool)
| RGroup (name : string) (r : regex).

(** One way of matching: the named groups, the text matched, the rest. *)
Definition re_hit : Type := list (string * string) * string * string.

Fixpoint re_plus (p : ascii -> bool) (s : string) : list (string * string) :=
  match s with
  | String c s' =>
      if p c
      then (List.map (fun mr => (String c (fst mr), snd mr)) (re_plus p s')
              ++ [(String c EmptyString, s')])%list
      else []
  | EmptyString => []
  end.

Fixpoint re_run (r : regex) (s : string) : list re_hit :=
  match r with
  | RChar c =>
      match s with
      | String c' s' => if Ascii.eqb c c' then [([], String c' EmptyString, s')] else []
      | EmptyString => []
      end
  | RClass p =>
      match s with
      | String c' s' => if p c' then [([], String c' EmptyString, s')] else []
      | EmptyString => []
      end
  | RCat r1 r2 =>
      List.flat_map
        (fun h1 : re_hit =>
           let '(g1, m1, rest1) := h1 in
           List.map (fun h2 : re_hit =>
                       let '(g2, m2, rest2) := h2 in
                       ((g1 ++ g2)%list, (m1 ++ m2)%string, rest2))
                    (re_run r2 rest1))
        (re_run r1 s)
  | RAlt r1 r2 => (re_run r1 s ++ re_run r2 s)%list
  | RPlus p => List.map (fun mr => ([], fst mr, snd mr)) (re_plus p s)
  | RGroup name r1 =>
      List.map (fun h : re_hit =>
                  let '(g, m, rest) := h in ((name, m) :: g, m, rest))
               (re_run r1 s)
  end.

Definition re_match (r : regex) (s : string) : option re_hit :=
  List.hd_error (re_run r s).

Definition group (g : list (string * string)) (name : string) : string :=
  match List.find (fun kv => String.eqb (fst kv) name) g with
  | Some kv => snd kv
  | None => EmptyString
  end.

(** Character classes. *)
Definition in_range (lo hi : string) (c : ascii) : bool :=
  match lo, hi with
  | String l _, String h _ =>
      (N.leb (N_of_ascii l) (N_of_ascii c) && N.leb (N_of_ascii c) (N_of_ascii h))%bool
  | _, _ => false
  end.

Definition is_digit : ascii -> bool := in_range "0" "9".

(** [\s] on code points below 256: TAB LF VT FF CR, FS GS RS US, SPACE,
    NEL (0x85) and NBSP (0xA0). *)
Definition is_space (c : ascii) : bool :=
  let n := N_of_ascii c in
  ((N.leb 9 n && N.leb n 13) || (N.leb 28 n && N.leb n 32)
   || N.eqb n 133 || N.eqb n 160)%bool.

Definition RLit (s : string) : regex :=
  match s with
  | String c _ => RChar c
  | EmptyString => RClass (fun _ => false)
  end.

Definition RRange (lo hi : string) : regex := RClass (in_range lo hi).
Definition RDigit : regex := RClass is_digit.

Declare Scope regex_scope.
Delimit Scope regex_scope with re.
Infix "·" := RCat (at level 40, left associativity) : regex_scope.
Infix "|||" := RAlt (at level 50, left associativity) : regex_scope.

(** The directives of [_strptime.TimeRE] that the format uses:
    [%m] = (?P<m>1[0-2]|0[1-9]|[1-9])
    [%d] = (?P<d>3[0-1]|[1-2]\d|0[1-9]|[1-9]| [1-9])
    [%H] = (?P<H>2[0-3]|[0-1]\d|\d)
    [%M] = (?P<M>[0-5]\d|\d) *)
Definition re_m : regex :=
  RGroup "m" (RLit "1" · RRange "0" "2" ||| RLit "0" · RRange "1" "9"
              ||| RRange "1" "9")%re.

Definition re_d : regex :=
  RGroup "d" (RLit "3" · RRange "0" "1" ||| RRange "1" "2" · RDigit
              ||| RLit "0" · RRange "1" "9" ||| RRange "1" "9"
              ||| RLit " " · RRange "1" "9")%re.

Definition re_H : regex :=
  RGroup "H" (RLit "2" · RRange "0" "3" ||| RRange "0" "1" · RDigit ||| RDigit)%re.

Definition re_M : regex :=
  RGroup "M" (RRange "0" "5" · RDigit ||| RDigit)%re.

(** The pattern [TimeRE.pattern] builds for ['%m/%d %H:%M']: the run of
    white space in the format becomes [\s+]. *)
Definition format_regex : regex :=
  RCat (re_m · RLit "/")%re
       (RCat (re_d · RPlus is_space)%re (RCat (re_H · RLit ":")%re re_M)).

(** [int(...)] on a captured group: optional leading blanks, then decimal
    digits. *)
Fixpoint int_digits (acc : Z) (s : string) : Z :=
  match s with
  | String c s' =>
      if is_digit c
      then int_digits (10 * acc + (Z.of_N (N_of_ascii c) - 48)) s'
      else int_digits acc s'
  | EmptyString => acc
  end.

Definition py_int (s : string) : Z := int_digits 0 s.

(** ** datetime *)

Record datetime := mkDatetime {
  year : Z; month : Z; day : Z;
  hour : Z; minute : Z; second : Z; microsecond : Z
}.

Definition is_leap (y : Z) : bool :=
  ((y mod 4 =? 0) && (negb (y mod 100 =? 0) || (y mod 400 =? 0)))%bool.

Definition days_in_month (y m : Z) : Z :=
  if m =? 2 then (if is_leap y then 29 else 28)
  else if (m =? 4) || (m =? 6) || (m =? 9) || (m =? 11) then 30
  else 31.

Definition valid_date (y m d : Z) : bool :=
  ((1 <=? y) && (y <=? 9999) && (1 <=? m) && (m <=? 12)
   && (1 <=? d) && (d <=? days_in_month y m))%bool.

Definition valid_time (H Mi S us : Z) : bool :=
  ((0 <=? H) && (H <? 24) && (0 <=? Mi) && (Mi <? 60)
   && (0 <=? S) && (S <? 60) && (0 <=? us) && (us <? 1000000))%bool.

Definition valid_datetime (t : datetime) : bool :=
  (valid_date (year t) (month t) (day t)
   && valid_time (hour t) (minute t) (second t) (microsecond t))%bool.

(** The constructor [datetime(y, m, d, H, M, S, us)]: [ValueError] on a
    field out of range. *)
Definition datetime_new (y m d H Mi S us : Z) : result datetime :=
  if (valid_date y m d && valid_time H Mi S us)%bool
  then Return (mkDatetime y m d H Mi S us)
  else Raise (ValueError "field out of range").

(** [dt.replace(y)]: the first positional argument of [replace] is the
    year; the new value goes through the constructor again. *)
Definition replace_year (t : datetime) (y : Z) : result datetime :=
  datetime_new y (month t) (day t) (hour t) (minute t) (second t) (microsecond t).

Definition digit_char (d : Z) : ascii := ascii_of_N (Z.to_N (48 + d)).

(** [width] decimal digits of [n], zero padded: Python's ["%0<width>d"] for
    [0 <= n < 10^width], which every field of a [datetime] satisfies. *)
Fixpoint zpad (width : nat) (n : Z) : string :=
  match width with
  | O => EmptyString
  | S w => zpad w (n / 10) ++ String (digit_char (n mod 10)) EmptyString
  end.

(** [dt.isoformat()]: YYYY-MM-DDTHH:MM:SS, with [.ffffff] only when the
    microsecond is not zero; no time zone (the values are naive). *)
Definition isoformat (t : datetime) : string :=
  zpad 4 (year t) ++ "-" ++ zpad 2 (month t) ++ "-" ++ zpad 2 (day t) ++ "T"
  ++ zpad 2 (hour t) ++ ":" ++ zpad 2 (minute t) ++ ":" ++ zpad 2 (second t)
  ++ (if microsecond t =? 0 then EmptyString else "." ++ zpad 6 (microsecond t)).

(** [dt.strftime('%m/%d')]. *)
Definition strftime_md (t : datetime) : string :=
  zpad 2 (month t) ++ "/" ++ zpad 2 (day t).

(** [datetime.strptime(data_string, '%m/%d %H:%M')], following
    [_strptime._strptime] and [_strptime_datetime]:
    - a [data_string] that is not a [str] is a [TypeError];
    - the compiled pattern must match at the start ([ValueError] if not) and
      the match must reach the end of the string ([ValueError]:
      unconverted data remains);
    - no year directive: the year is 1900, except that the day-of-year
      computation uses 1904 for 29 February ([leap_year_fix]) and then sets
      the year back to 1900;
    - the class constructor is called on (1900, month, day, hour, minute, 0,
      0) and raises [ValueError] when the day is out of range. *)
Definition strptime (data_string : json) : result datetime :=
  match data_string with
  | JStr s =>
      match re_match format_regex s with
      | None => Raise (ValueError "time data does not match format")
      | Some (found, _, rest) =>
          match rest with
          | String _ _ => Raise (ValueError "unconverted data remains")
          | EmptyString =>
              let month := py_int (group found "m") in
              let day := py_int (group found "d") in
              let hour := py_int (group found "H") in
              let minute := py_int (group found "M") in
              let leap_year_fix := ((month =? 2) && (day =? 29))%bool in
              let year := if leap_year_fix then 1904 else 1900 in
              if valid_date year month day
              then datetime_new 1900 month day hour minute 0 0
              else Raise (ValueError "day is out of range for month")
          end
      end
  | _ => Raise (TypeError "strptime() argument 1 must be str")
  end.

(** ** The world: clock, HTTP transport, the Session object

    [datetime.now()] and the HTTP client are the module's two effects.  The
    environment fixes what the outside answers: [clock i] is what the
    [i]-th call of [datetime.now()] returns and [transport i req] is the
    outcome of the [i]-th request.  The [urls] module of the package and the
    standard [json] codec are not part of the file under study and are
    taken as parameters. *)

Inductive http_method := GET | PUT | DELETE.

Record request := mkRequest {
  req_method : http_method;
  req_url : string;
  req_headers : list (string * string);
  req_params : list (string * Z);
  req_data : option string
}.

(** A response object as the code sees it: the attributes a lookup finds
    ([response.status], ...) and the outcome of awaiting [response.json()]. *)
Record response := mkResponse {
  resp_attrs : gmap string pyval;
  resp_json : result json
}.

(** The response class of the transport the Session uses
    (aiohttp.ClientResponse): [status] is an [int], [json] and [text] are
    coroutine methods; there is no attribute [status_code]. *)
Definition aiohttp_response (status : Z) (body_json : result json) : response :=
  mkResponse
    (<["status" := VInt status]>
       (<["json" := VMethod "json"]> (<["text" := VMethod "text"]> ∅)))
    body_json.

(** What the outside provides: the clock, the server, the [json] codec,
    [str()] of a value, and the URL builders of the package's [urls]
    module (pure string formatting, one per endpoint). *)
Record environment := mkEnvironment {
  clock : nat -> datetime;
  transport : nat -> request -> result response;
  json_loads : string -> result json;
  json_dumps : json -> string;
  py_str : pyval -> string;
  urls_status : pyval -> pyval -> pyval -> string;
  urls_get_temperature : pyval -> pyval -> pyval -> string;
  urls_get_ethernet_status : pyval -> pyval -> pyval -> string;
  urls_get_doorlock_devices : pyval -> pyval -> pyval -> string;
  urls_get_doorlock_status : pyval -> pyval -> pyval -> string;
  urls_set_armstate : pyval -> string;
  urls_history : pyval -> pyval -> pyval -> string;
  urls_lock_doorlock : pyval -> pyval -> pyval -> pyval -> pyval -> string;
  urls_unlock_doorlock : pyval -> pyval -> pyval -> pyval -> pyval -> string;
  urls_lockconfig : pyval -> pyval -> string;
  urls_login : string
}.

(** The mutable state: how often the clock was read, the requests issued so
    far, the client handles opened so far, and the instance dictionary of
    the Session object ([self.__dict__]). *)
Record world := mkWorld {
  clock_reads : nat;
  requests : list request;
  clients : nat;
  self_attrs : gmap string pyval
}.

(** One more reading of the clock; one more request on the wire. *)
Definition tick (w : world) : world :=
  mkWorld (S (clock_reads w)) (requests w) (clients w) (self_attrs w).

Definition sent (req : request) (w : world) : world :=
  mkWorld (clock_reads w) (requests w ++ [req]) (clients w) (self_attrs w).

Definition M (A : Type) : Type := world -> result A * world.

Definition ret {A} (a : A) : M A := fun w => (Return a, w).
Definition raise {A} (e : exception) : M A := fun w => (Raise e, w).
Definition bind {A B} (m : M A) (k : A -> M B) : M B :=
  fun w => match m w with
           | (Return a, w') => k a w'
           | (Raise e, w') => (Raise e, w')
           end.
Definition lift {A} (r : result A) : M A := fun w => (r, w).

Declare Scope py_scope.
Delimit Scope py_scope with py.
Notation "x <- m ;; k" := (bind m (fun x => k))
  (at level 100, m at next level, right associativity) : py_scope.
Notation "m ;;; k" := (bind m (fun _ => k))
  (at level 100, right associativity) : py_scope.
Open Scope py_scope.

(** Python slicing of a [str]: [s[:n]] and [s[n:]]. *)
Definition str_take (n : nat) (s : string) : string := substring 0 n s.

Fixpoint str_drop (n : nat) (s : string) : string :=
  match n, s with
  | O, _ => s
  | S n', String _ s' => str_drop n' s'
  | S _, EmptyString => EmptyString
  end.

(** Subscripting and iterating JSON values, with Python's errors. *)
Definition py_getitem (v : json) (key : string) : result json :=
  match v with
  | JDict d =>
      match d !! key with
      | Some x => Return x
      | None => Raise (KeyError key)
      end
  | JList _ => Raise (TypeError "list indices must be integers or slices, not str")
  | JStr _ => Raise (TypeError "string indices must be integers, not 'str'")
  | _ => Raise (TypeError "object is not subscriptable")
  end.

Definition py_setitem (v : json) (key : string) (x : json) : result json :=
  match v with
  | JDict d => Return (JDict (<[key := x]> d))
  | JList _ => Raise (TypeError "list indices must be integers or slices, not str")
  | _ => Raise (TypeError "object does not support item assignment")
  end.

Fixpoint str_chars (s : string) : list json :=
  match s with
  | String c s' => JStr (String c EmptyString) :: str_chars s'
  | EmptyString => []
  end.

Definition py_iter (v : json) : result (list json) :=
  match v with
  | JList l => Return l
  | JStr s => Return (str_chars s)
  | JDict d => Return (JStr <$> (map_to_list d).*1)
  | _ => Raise (TypeError "object is not iterable")
  end.

Section Session.

Variable env : environment.

(** [datetime.now()] *)
Definition datetime_now : M datetime :=
  fun w => (Return (clock env (clock_reads w)), tick w).

(** ** fix_date_short (lines 19-34)

    [result] is the local variable: [None] while it is unbound.  The
    [except ValueError] handler returns from its two branches and otherwise
    falls out of the [try] statement to [return result.isoformat()]. *)
Definition fall_through (result : option datetime) : M string :=
  match result with
  | Some r => ret (isoformat r)
  | None => raise (UnboundLocalError "result")
  end.

(** The body of the function; [recur] is the function itself at the two
    recursive calls. *)
Definition fix_date_short_body (recur : json -> M string) (date_string : json) : M string :=
  let handler (result : option datetime) : M string :=
    match date_string with
    | JStr s =>
        if String.eqb (str_take 5 s) "Today" then
          now <- datetime_now ;;
          recur (JStr (strftime_md now ++ str_drop 5 s))
        else if String.eqb (str_take 9 s) "Yesterday" then
          now <- datetime_now ;;
          recur (JStr (strftime_md now ++ str_drop 9 s))
        else fall_through result
    | JList _ => fall_through result
    | _ => raise (TypeError "object is not subscriptable")
    end in
  match strptime date_string with
  | Return parsed =>
      now <- datetime_now ;;
      match replace_year parsed (year now) with
      | Return replaced => ret (isoformat replaced)
      | Raise (ValueError _) => handler (Some parsed)
      | Raise e => raise e
      end
  | Raise (ValueError _) => handler None
  | Raise e => raise e
  end.

Fixpoint fix_date_short_fuel (fuel : nat) (date_string : json) : M string :=
  match fuel with
  | O => raise RecursionError
  | S fuel' => fix_date_short_body (fix_date_short_fuel fuel') date_string
  end.

(** The recursion is at most one level deep (see [fix_date_short_fuel_enough]
    below), so two units of fuel are all the function ever uses. *)
Definition fix_date_short (date_string : json) : M string :=
  fix_date_short_fuel 2 date_string.

(** ** _validate_response (lines 12-16) and ResponseError (lines 52-61) *)

Definition response_getattr (r : response) (name : string) : M pyval :=
  match resp_attrs r !! name with
  | Some v => ret v
  | None => raise (AttributeError name)
  end.

(** [await response.json()] *)
Definition response_json (r : response) : M json :=
  m <- response_getattr r "json" ;;
  match m with
  | VMethod _ => lift (resp_json r)
  | _ => raise (TypeError "object is not callable")
  end.

(** [v == n] for an [int] literal [n]. *)
Definition py_eq_int (v : pyval) (n : Z) : bool :=
  match v with
  | VInt m => m =? n
  | _ => false
  end.

(** [ResponseError(status_code, text)]: the constructor stores
    [status_code] and [json.loads(text)]; [json.loads] wants a [str]
    ([TypeError] otherwise) and its own failure leaves the constructor. *)
Definition ResponseError_init (status_code text : pyval) : M exception :=
  match text with
  | VStr s => parsed <- lift (json_loads env s) ;; ret (ResponseError status_code parsed)
  | _ => raise (TypeError "the JSON object must be str, bytes or bytearray")
  end.

Definition _validate_response (r : response) : M json :=
  status <- response_getattr r "status" ;;
  if py_eq_int status 200 then response_json r
  else
    status_code <- response_getattr r "status_code" ;;
    text <- response_getattr r "text" ;;
    err <- ResponseError_init status_code text ;;
    raise err.

(** ** class Session (lines 64-218) *)

Definition getattr_self (name : string) : M pyval :=
  fun w => match self_attrs w !! name with
           | Some v => (Return v, w)
           | None => (Raise (AttributeError name), w)
           end.

Definition setattr_self (name : string) (v : pyval) : M unit :=
  fun w => (Return tt,
            mkWorld (clock_reads w) (requests w) (clients w)
                    (<[name := v]> (self_attrs w))).

(** [aiohttp.ClientSession().__aenter__()]: a new client handle. *)
Definition ClientSession_enter : M pyval :=
  fun w => (Return (VClient (clients w)),
            mkWorld (clock_reads w) (requests w) (S (clients w)) (self_attrs w)).

(** Looking up [get], [put] or [delete] on what [self.session] holds. *)
Definition client_method (session : pyval) (name : string) : M nat :=
  match session with
  | VClient h => ret h
  | _ => raise (AttributeError name)
  end.

(** Awaiting the bound method: the request is issued and the transport
    answers with a response or raises. *)
Definition send (handle : nat) (req : request) : M response :=
  fun w => (transport env (length (requests w)) req, sent req w).

Definition Session__init__ (username password panel : pyval) : M unit :=
  setattr_self "_username" username ;;;
  setattr_self "_password" password ;;;
  setattr_self "_panel" panel ;;;
  client <- ClientSession_enter ;;
  setattr_self "session" client.

(** [Session(username, password, panel)]: a new instance, whose dictionary
    is empty, then [__init__]. *)
Definition Session_create (username password panel : pyval) : M unit :=
  fun w => Session__init__ username password panel
             (mkWorld (clock_reads w) (requests w) (clients w) ∅).

Definition get_arm_state : M json :=
  session <- getattr_self "session" ;;
  h <- client_method session "get" ;;
  username <- getattr_self "_username" ;;
  password <- getattr_self "_password" ;;
  panel <- getattr_self "_panel" ;;
  response <- send h (mkRequest GET (urls_status env username password panel) [] [] None) ;;
  res <- _validate_response response ;;
  timeex <- lift (py_getitem res "timeex") ;;
  fixed <- fix_date_short timeex ;;
  lift (py_setitem res "timeex" (JStr fixed)).

(** [i['serialNo'] == device_label] for a [str] label. *)
Definition py_eq_str (v : json) (s : string) : bool :=
  match v with
  | JStr t => String.eqb t s
  | _ => false
  end.

(** The comprehension [[i for i in items if i['serialNo'] == device_label]]. *)
Fixpoint select_serial (device_label : string) (items : list json) : result (list json) :=
  match items with
  | [] => Return []
  | i :: rest =>
      match py_getitem i "serialNo" with
      | Raise e => Raise e
      | Return serial =>
          match select_serial device_label rest with
          | Raise e => Raise e
          | Return kept =>
              Return (if py_eq_str serial device_label then i :: kept else kept)
          end
      end
  end.

(** [device_label] is a [str] or [None]. *)
Definition get_temperature (device_label : option string) : M json :=
  session <- getattr_self "session" ;;
  h <- client_method session "get" ;;
  username <- getattr_self "_username" ;;
  password <- getattr_self "_password" ;;
  panel <- getattr_self "_panel" ;;
  response <- send h (mkRequest GET (urls_get_temperature env username password panel)
                                [] [] None) ;;
  res <- _validate_response response ;;
  match device_label with
  | Some label =>
      components <- lift (py_getitem res "temperatureComponentList") ;;
      items <- lift (py_iter components) ;;
      kept <- lift (select_serial label items) ;;
      lift (py_setitem res "temperatureComponentList" (JList kept))
  | None => ret res
  end.

Definition get_ethernet_status : M json :=
  session <- getattr_self "session" ;;
  h <- client_method session "get" ;;
  username <- getattr_self "_username" ;;
  password <- getattr_self "_password" ;;
  panel <- getattr_self "_panel" ;;
  response <- send h (mkRequest GET (urls_get_ethernet_status env username password panel)
                                [] [] None) ;;
  _validate_response response.

Definition get_lock_devices : M json :=
  session <- getattr_self "session" ;;
  h <- client_method session "get" ;;
  username <- getattr_self "_username" ;;
  password <- getattr_self "_password" ;;
  panel <- getattr_self "_panel" ;;
  response <- send h (mkRequest GET (urls_get_doorlock_devices env username password panel)
                                [] [] None) ;;
  _validate_response response.

Definition get_lock_status : M json :=
  session <- getattr_self "session" ;;
  h <- client_method session "get" ;;
  username <- getattr_self "_username" ;;
  password <- getattr_self "_password" ;;
  panel <- getattr_self "_panel" ;;
  response <- send h (mkRequest GET (urls_get_doorlock_status env username password panel)
                                [] [] None) ;;
  _validate_response response.

Definition accept_header : string * string :=
  ("Accept", "application/json, text/javascript, */*; q=0.01").

(** ['vid={}'.format(self._vid)] *)
Definition vid_cookie : M (string * string) :=
  vid <- getattr_self "_vid" ;;
  ret ("Cookie", "vid=" ++ py_str env vid).

Definition set_arm_state (code : pyval) (state : json) : M json :=
  session <- getattr_self "session" ;;
  h <- client_method session "put" ;;
  giid <- getattr_self "_giid" ;;
  let url := urls_set_armstate env giid in
  cookie <- vid_cookie ;;
  let headers := [accept_header; ("Content-Type", "application/json"); cookie] in
  let data :=
    json_dumps env (JDict (<["code" := JStr (py_str env code)]>
                             (<["state" := state]> ∅))) in
  response <- send h (mkRequest PUT url headers [] (Some data)) ;;
  _validate_response response.

(** The loop [for row in rows: row['time'] = fix_date_short(row['time'])];
    the rows are changed in place, so the list the caller holds afterwards
    is the list of changed rows. *)
Fixpoint fix_rows (rows : list json) : M (list json) :=
  match rows with
  | [] => ret []
  | row :: rest =>
      time <- lift (py_getitem row "time") ;;
      fixed <- fix_date_short time ;;
      row' <- lift (py_setitem row "time" (JStr fixed)) ;;
      rest' <- fix_rows rest ;;
      ret (row' :: rest')
  end.

(** [offset] is an [int]; [int(offset)] is [offset]. *)
Definition get_history (offset : Z) : M json :=
  session <- getattr_self "session" ;;
  h <- client_method session "get" ;;
  username <- getattr_self "_username" ;;
  password <- getattr_self "_password" ;;
  panel <- getattr_self "_panel" ;;
  response <- send h (mkRequest GET (urls_history env username password panel)
                                [] [("startIndex", offset)] None) ;;
  res <- _validate_response response ;;
  logs <- lift (py_getitem res "logs") ;;
  rows <- lift (py_iter logs) ;;
  rows' <- fix_rows rows ;;
  match logs with
  | JList _ => lift (py_setitem res "logs" (JList rows'))
  | _ => ret res
  end.

Definition lock_doorlock (serialNo code : pyval) : M json :=
  session <- getattr_self "session" ;;
  h <- client_method session "get" ;;
  username <- getattr_self "_username" ;;
  password <- getattr_self "_password" ;;
  panel <- getattr_self "_panel" ;;
  response <- send h (mkRequest GET
                        (urls_lock_doorlock env username password panel serialNo code)
                        [] [] None) ;;
  _validate_response response.

Definition unlock_doorlock (serialNo code : pyval) : M json :=
  session <- getattr_self "session" ;;
  h <- client_method session "get" ;;
  username <- getattr_self "_username" ;;
  password <- getattr_self "_password" ;;
  panel <- getattr_self "_panel" ;;
  response <- send h (mkRequest GET
                        (urls_unlock_doorlock env username password panel serialNo code)
                        [] [] None) ;;
  _validate_response response.

Definition get_lock_config (device_label : pyval) : M json :=
  session <- getattr_self "session" ;;
  h <- client_method session "get" ;;
  giid <- getattr_self "_giid" ;;
  let url := urls_lockconfig env giid device_label in
  cookie <- vid_cookie ;;
  response <- send h (mkRequest GET url [accept_header; cookie] [] None) ;;
  _validate_response response.

(** Returns [None]. *)
Definition logout : M json :=
  session <- getattr_self "session" ;;
  h <- client_method session "delete" ;;
  let url := urls_login env in
  cookie <- vid_cookie ;;
  response <- send h (mkRequest DELETE url [cookie] [] None) ;;
  _validate_response response ;;;
  ret JNull.

(** The eleven operations of a Session, and a caller that runs a sequence
    of them on one Session, going on after a failed call. *)
Inductive operation :=
| GetArmState
| GetTemperature (device_label : option string)
| GetEthernetStatus
| GetLockDevices
| GetLockStatus
| SetArmState (code : pyval) (state : json)
| GetHistory (offset : Z)
| LockDoorlock (serialNo code : pyval)
| UnlockDoorlock (serialNo code : pyval)
| GetLockConfig (device_label : pyval)
| Logout.

Definition run_operation (op : operation) : M json :=
  match op with
  | GetArmState => get_arm_state
  | GetTemperature l => get_temperature l
  | GetEthernetStatus => get_ethernet_status
  | GetLockDevices => get_lock_devices
  | GetLockStatus => get_lock_status
  | SetArmState c s => set_arm_state c s
  | GetHistory o => get_history o
  | LockDoorlock s c => lock_doorlock s c
  | UnlockDoorlock s c => unlock_doorlock s c
  | GetLockConfig l => get_lock_config l
  | Logout => logout
  end.

Fixpoint run_operations (ops : list operation) (w : world) : list (result json) * world :=
  match ops with
  | [] => ([], w)
  | op :: rest =>
      let '(r, w') := run_operation op w in
      let '(rs, w'') := run_operations rest w' in
      (r :: rs, w'')
  end.

End Session.

(** The same environment with another clock. *)
Definition with_clock (c : nat -> datetime) (env : environment) : environment :=
  mkEnvironment c (transport env) (json_loads env) (json_dumps env) (py_str env)
    (urls_status env) (urls_get_temperature env) (urls_get_ethernet_status env)
    (urls_get_doorlock_devices env) (urls_get_doorlock_status env)
    (urls_set_armstate env) (urls_history env) (urls_lock_doorlock env)
    (urls_unlock_doorlock env) (urls_lockconfig env) (urls_login env).

(** ** aiohttp.ClientResponse.json

    [_validate_response] leaves the decoding of the body to the response
    object.  What [await response.json()] does, called without arguments as
    line 15 calls it (aiohttp/client_reqrep.py):
    - the Content-Type header must name a JSON type, else it raises
      [ContentTypeError] (attempt to decode JSON with unexpected mimetype);
    - [stripped = self._body.strip()]; a blank body gives [None];
    - otherwise [loads(stripped.decode(encoding))], with [json.loads] for
      [loads] and the encoding the response declares.

    A message is what the response object holds after the body was read:
    the status, whether the Content-Type header passes that check
    ([application/json] does; [text/plain], [text/html] or no header at all
    do not), the bytes of the body, and [bytes.decode] in the response's
    encoding (the text, or [UnicodeDecodeError]). *)
Record http_message := mkMessage {
  msg_status : Z;
  msg_json_type : bool;
  msg_body : string;
  msg_decode : string -> result string
}.

(** The white space of [bytes.strip()]: TAB LF VT FF CR and SPACE. *)
Definition is_ascii_space (c : ascii) : bool :=
  let n := N_of_ascii c in
  ((N.leb 9 n && N.leb n 13) || N.eqb n 32)%bool.

Fixpoint lstrip (s : string) : string :=
  match s with
  | String c s' => if is_ascii_space c then lstrip s' else s
  | EmptyString => EmptyString
  end.

Fixpoint rstrip (s : string) : string :=
  match s with
  | String c s' =>
      match rstrip s' with
      | EmptyString => if is_ascii_space c then EmptyString else String c EmptyString
      | kept => String c kept
      end
  | EmptyString => EmptyString
  end.

Definition bytes_strip (s : string) : string := rstrip (lstrip s).

Definition ClientResponse_json (env : environment) (m : http_message) : result json :=
  if msg_json_type m then
    match bytes_strip (msg_body m) with
    | EmptyString => Return JNull
    | stripped =>
        match msg_decode m stripped with
        | Return text => json_loads env text
        | Raise e => Raise e
        end
    end
  else Raise (ExternalError "ContentTypeError"
                "Attempt to decode JSON with unexpected mimetype").

(** The response object the transport hands out for a message. *)
Definition ClientResponse (env : environment) (m : http_message) : response :=
  aiohttp_response (msg_status m) (ClientResponse_json env m).

(** ** An environment and a Session for the examples

    The clock stands still at [now]; the server answers every request with
    status 200 and the JSON value [payload]; the URL builders return fixed
    paths. *)
Definition example_py_str (v : pyval) : string :=
  match v with
  | VStr s => s
  | _ => "None"
  end.

Definition example_env (now : datetime) (payload : result json) : environment :=
  mkEnvironment (fun _ => now)
    (fun _ _ => Return (aiohttp_response 200 payload))
    (fun _ => Raise (ExternalError "JSONDecodeError" "Expecting value"))
    (fun _ => "{}") example_py_str
    (fun _ _ _ => "/status") (fun _ _ _ => "/temperature") (fun _ _ _ => "/ethernet")
    (fun _ _ _ => "/locks") (fun _ _ _ => "/lockstatus") (fun _ => "/armstate")
    (fun _ _ _ => "/history") (fun _ _ _ _ _ => "/lock") (fun _ _ _ _ _ => "/unlock")
    (fun _ _ => "/lockconfig") "/login".

Definition empty_world : world := mkWorld 0 [] 0 ∅.

Definition example_world : world :=
  snd (Session_create (VStr "user") (VStr "secret") (VStr "panel-1") empty_world).

(** ** Vocabulary of the statements and data of the examples *)

(** "MM/DD HH:MM", every field two digits. *)
Definition short_date (m d H Mi : Z) : string :=
  zpad 2 m ++ "/" ++ zpad 2 d ++ " " ++ zpad 2 H ++ ":" ++ zpad 2 Mi.

(** The two relative forms, "Today HH:MM" and "Yesterday HH:MM". *)
Definition relative_date (word : string) (H Mi : Z) : string :=
  word ++ " " ++ zpad 2 H ++ ":" ++ zpad 2 Mi.

Definition leap_day_2024 : datetime := mkDatetime 2024 2 29 8 0 0 0.
Definition march_5_2024 : datetime := mkDatetime 2024 3 5 8 0 0 0.

Definition msg_bad : json := JDict (<["msg" := JStr "bad"]> ∅).
Definition a_is_1 : json := JDict (<["a" := JInt 1]> ∅).

(** A computation that leaves the instance dictionary as it found it. *)
Definition frame {A} (m : M A) : Prop :=
  forall w, self_attrs (snd (m w)) = self_attrs w.

(** The Session [__init__] made: the three credentials and a client. *)
Definition session_of (username password panel : pyval) (handle : nat) (w : world) : Prop :=
  self_attrs w !! "session" = Some (VClient handle)
  /\ self_attrs w !! "_username" = Some username
  /\ self_attrs w !! "_password" = Some password
  /\ self_attrs w !! "_panel" = Some panel.

(** Each entry of the list is an object with a [serialNo]. *)
Definition has_serial (i : json) : bool :=
  match py_getitem i "serialNo" with
  | Return _ => true
  | Raise _ => false
  end.

(** The entry's [serialNo] equals the label. *)
Definition serial_is (label : string) (i : json) : bool :=
  match py_getitem i "serialNo" with
  | Return serial => py_eq_str serial label
  | Raise _ => false
  end.

Definition user : pyval := VStr "user".
Definition secret : pyval := VStr "secret".
Definition panel_1 : pyval := VStr "panel-1".

Definition arm_payload : gmap string json :=
  <["time" := JStr "Today 10:00"]>
    (<["timeex" := JStr "Today 10:00"]> (<["message" := JStr "armed"]> ∅)).

Definition arm_env : environment := example_env march_5_2024 (Return (JDict arm_payload)).

Definition reading (serial : string) (value : Z) : json :=
  JDict (<["serialNo" := JStr serial]> (<["temperature" := JInt value]> ∅)).

Definition temperature_payload : gmap string json :=
  <["temperatureComponentList" := JList [reading "ABC123" 21; reading "XYZ999" 4]]> ∅.

Definition temperature_env : environment :=
  example_env march_5_2024 (Return (JDict temperature_payload)).

Definition log_entry (time : string) : json :=
  JDict (<["time" := JStr time]> (<["event" := JStr "armed"]> ∅)).

Definition history_payload (times : list string) : json :=
  JDict (<["logs" := JList (log_entry <$> times)]> ∅).

(** A clock that passes New Year's midnight between its first and its
    second reading. *)
Definition new_year_clock (i : nat) : datetime :=
  match i with
  | O => mkDatetime 2023 12 31 23 59 59 0
  | _ => mkDatetime 2024 1 1 0 0 0 0
  end.

(** The first character is a decimal digit. *)
Definition starts_with_digit (s : string) : bool :=
  match s with
  | String c _ => is_digit c
  | EmptyString => false
  end.

(** "YYYY-MM-DDTHH:MM:00". *)
Definition iso_minutes (y m d H Mi : Z) : string :=
  zpad 4 y ++ "-" ++ zpad 2 m ++ "-" ++ zpad 2 d ++ "T"
  ++ zpad 2 H ++ ":" ++ zpad 2 Mi ++ ":00".

(** A timestamp of a whole minute of a calendar day, in one of [years]. *)
Definition minute_stamp (years : list Z) (fixed : string) : Prop :=
  exists t, valid_datetime t = true /\ second t = 0 /\ microsecond t = 0
            /\ fixed = isoformat t /\ year t ∈ years.

(** The same environment with another JSON decoder. *)
Definition with_json_loads (f : string -> result json) (env : environment) : environment :=
  mkEnvironment (clock env) (transport env) f (json_dumps env) (py_str env)
    (urls_status env) (urls_get_temperature env) (urls_get_ethernet_status env)
    (urls_get_doorlock_devices env) (urls_get_doorlock_status env)
    (urls_set_armstate env) (urls_history env) (urls_lock_doorlock env)
    (urls_unlock_doorlock env) (urls_lockconfig env) (urls_login env).

(** The same environment with another server. *)
Definition with_transport (f : nat -> request -> result response) (env : environment)
    : environment :=
  mkEnvironment (clock env) f (json_loads env) (json_dumps env) (py_str env)
    (urls_status env) (urls_get_temperature env) (urls_get_ethernet_status env)
    (urls_get_doorlock_devices env) (urls_get_doorlock_status env)
    (urls_set_armstate env) (urls_history env) (urls_lock_doorlock env)
    (urls_unlock_doorlock env) (urls_lockconfig env) (urls_login env).

(** A response object of another kind, one that has [status_code] and a
    [str] in [text] beside [status]. *)
Definition text_response (status : Z) (body : string) : response :=
  mkResponse
    (<["status" := VInt status]>
       (<["status_code" := VInt status]> (<["text" := VStr body]> ∅)))
    (Raise (TypeError "object is not callable")).

(** A part of the world that a computation leaves as it found it. *)
Definition keeps {X A : Type} (proj : world -> X) (m : M A) : Prop :=
  forall w, proj (snd (m w)) = proj w.

(** The request of each operation that authenticates with the three
    credentials (lines 83-84, 92-93, 104-107, 114-117, 124-127, 153-156,
    170-175, 187-192): a GET without headers and without body. *)
Definition credential_request (env : environment) (username password panel : pyval)
    (op : operation) : option request :=
  match op with
  | GetArmState =>
      Some (mkRequest GET (urls_status env username password panel) [] [] None)
  | GetTemperature _ =>
      Some (mkRequest GET (urls_get_temperature env username password panel) [] [] None)
  | GetEthernetStatus =>
      Some (mkRequest GET (urls_get_ethernet_status env username password panel) [] [] None)
  | GetLockDevices =>
      Some (mkRequest GET (urls_get_doorlock_devices env username password panel) [] [] None)
  | GetLockStatus =>
      Some (mkRequest GET (urls_get_doorlock_status env username password panel) [] [] None)
  | GetHistory offset =>
      Some (mkRequest GET (urls_history env username password panel) []
              [("startIndex", offset)] None)
  | LockDoorlock serialNo code =>
      Some (mkRequest GET (urls_lock_doorlock env username password panel serialNo code)
              [] [] None)
  | UnlockDoorlock serialNo code =>
      Some (mkRequest GET (urls_unlock_doorlock env username password panel serialNo code)
              [] [] None)
  | SetArmState _ _ | GetLockConfig _ | Logout => None
  end.

(** What each of those operations does with the response. *)
Definition response_handler (env : environment) (op : operation) (response : response)
    : M json :=
  match op with
  | GetArmState =>
      res <- _validate_response env response ;;
      timeex <- lift (py_getitem res "timeex") ;;
      fixed <- fix_date_short env timeex ;;
      lift (py_setitem res "timeex" (JStr fixed))
  | GetTemperature device_label =>
      res <- _validate_response env response ;;
      match device_label with
      | Some label =>
          components <- lift (py_getitem res "temperatureComponentList") ;;
          items <- lift (py_iter components) ;;
          kept <- lift (select_serial label items) ;;
          lift (py_setitem res "temperatureComponentList" (JList kept))
      | None => ret res
      end
  | GetHistory _ =>
      res <- _validate_response env response ;;
      logs <- lift (py_getitem res "logs") ;;
      rows <- lift (py_iter logs) ;;
      rows' <- fix_rows env rows ;;
      match logs with
      | JList _ => lift (py_setitem res "logs" (JList rows'))
      | _ => ret res
      end
  | _ => _validate_response env response
  end.

(** The operations that return the decoded payload as it is. *)
Definition is_passthrough (op : operation) : bool :=
  match op with
  | GetEthernetStatus | GetLockDevices | GetLockStatus
  | LockDoorlock _ _ | UnlockDoorlock _ _ => true
  | _ => false
  end.

(** The operations that call [fix_date_short]. *)
Definition normalises_dates (op : operation) : bool :=
  match op with
  | GetArmState | GetHistory _ => true
  | _ => false
  end.

Definition is_dict (j : json) : bool :=
  match j with
  | JDict _ => true
  | _ => false
  end.

(** A Session on which a caller has set the two attributes that [__init__]
    leaves out. *)
Definition cookie_world : world :=
  snd (setattr_self "_vid" (VStr "v1")
         (snd (setattr_self "_giid" (VStr "g1") example_world))).

Definition lock_payload : json := JDict (<["status" := JStr "locked"]> ∅).

Definition lock_env : environment := example_env march_5_2024 (Return lock_payload).

(** A server that cannot be reached. *)
Definition offline_env : environment :=
  with_transport (fun _ _ => Raise (ExternalError "ClientConnectorError" "offline")) lock_env.

Definition no_timeex_payload : gmap string json := <["message" := JStr "armed"]> ∅.

Definition no_timeex_env : environment :=
  example_env march_5_2024 (Return (JDict no_timeex_payload)).

Definition null_timeex_payload : gmap string json := <["timeex" := JNull]> ∅.

Definition null_timeex_env : environment :=
  example_env march_5_2024 (Return (JDict null_timeex_payload)).

Definition unlabelled_readings : list json :=
  [reading "ABC123" 21; JDict (<["temperature" := JInt 4]> ∅)].

Definition unlabelled_payload : gmap string json :=
  <["temperatureComponentList" := JList unlabelled_readings]> ∅.

Definition unlabelled_env : environment :=
  example_env march_5_2024 (Return (JDict unlabelled_payload)).

Definition history_env (times : list string) : environment :=
  example_env march_5_2024 (Return (history_payload times)).

(** [bytes.decode('ascii')]: the same characters, and [UnicodeDecodeError]
    on a byte above 127. *)
Fixpoint is_ascii (s : string) : bool :=
  match s with
  | String c s' => (N.ltb (N_of_ascii c) 128 && is_ascii s')%bool
  | EmptyString => true
  end.

Definition ascii_decode (body : string) : result string :=
  if is_ascii body then Return body
  else Raise (ExternalError "UnicodeDecodeError" "ordinal not in range(128)").

(** The text of the specification's example, an object with the one member
    a = 1: brace, quote, a, quote, colon, 1, brace. *)
Definition dquote : ascii := "034"%char.

Definition text_a_is_1 : string :=
  String "{" (String dquote (String "a" (String dquote ":1}"))).

(** [json.loads] on the texts of the examples: the object above, and
    [JSONDecodeError] on text that is no JSON (blank text included). *)
Definition example_loads (text : string) : result json :=
  if String.eqb text text_a_is_1 then Return a_is_1
  else Raise (ExternalError "JSONDecodeError" "Expecting value").

Definition decoding_env : environment := with_json_loads example_loads arm_env.

(** The messages of the examples, all with status 200: the object with a
    line feed after it, as JSON and as plain text; a body of two blanks;
    a body that is no JSON. *)
Definition line_feed : ascii := "010"%char.

Definition json_message : http_message :=
  mkMessage 200 true (text_a_is_1 ++ String line_feed EmptyString) ascii_decode.

Definition plain_text_message : http_message :=
  mkMessage 200 false (text_a_is_1 ++ String line_feed EmptyString) ascii_decode.

Definition blank_message : http_message := mkMessage 200 true "  " ascii_decode.

Definition html_message : http_message := mkMessage 200 true "<html>" ascii_decode.

(** The year of a converted date when the clock shows [now] at the call of
    [replace]: the year of [now] if the [datetime] constructor accepts it
    (1 to 9999); otherwise [replace] raises [ValueError], the handler falls
    through and the parser's 1900 stays. *)
Definition stamp_year (now : datetime) : Z :=
  if ((1 <=? year now) && (year now <=? 9999))%bool then year now else 1900.

(** * Properties *)

(** ** Case analysis on a bounded integer *)

Ltac enumerate z lo len :=
  let H := fresh "Hin" in
  assert (H : z ∈ seqZ lo len) by (apply elem_of_seqZ; lia);
  vm_compute in H;
  repeat (apply elem_of_cons in H as [-> | H]);
  [ .. | by apply elem_of_nil in H ].

Ltac unfold_valid H :=
  unfold valid_date, valid_time in H;
  rewrite ?Bool.andb_true_iff, ?Z.leb_le, ?Z.ltb_lt in H.

(** ** Digits *)

Lemma zpad2_cons (n : Z) (t : string) :
  (zpad 2 n ++ t)%string
  = String (digit_char (n / 10 mod 10)) (String (digit_char (n mod 10)) t).
Proof. reflexivity. Qed.

Lemma digit_char_is_digit (k : Z) :
  0 <= k < 10 ->
  is_digit (digit_char k) = true /\ Z.of_N (N_of_ascii (digit_char k)) - 48 = k.
Proof. intros Hk. enumerate k 0 10; by vm_compute. Qed.

Lemma zpad2_eq (n : Z) :
  zpad 2 n = String (digit_char (n / 10 mod 10)) (String (digit_char (n mod 10)) EmptyString).
Proof. reflexivity. Qed.

Lemma py_int_zpad2 (n : Z) : 0 <= n < 100 -> py_int (zpad 2 n) = n.
Proof.
  intros Hn. rewrite zpad2_eq. unfold py_int. cbn [int_digits].
  destruct (digit_char_is_digit (n / 10 mod 10)) as [-> ->];
    [apply Z.mod_pos_bound; lia|].
  destruct (digit_char_is_digit (n mod 10)) as [-> ->];
    [apply Z.mod_pos_bound; lia|].
  rewrite (Z.mod_small (n / 10) 10) by (split; [apply Z.div_pos; lia | apply Z.div_lt_upper_bound; lia]).
  pose proof (Z.div_mod n 10). lia.
Qed.

(** ** The pattern on a zero-padded short date *)

Lemma re_run_cat_single (r1 r2 : regex) (s : string) g1 m1 rest1 :
  re_run r1 s = [(g1, m1, rest1)] ->
  re_run (RCat r1 r2) s
  = List.map (fun h2 : re_hit =>
                let '(g2, m2, rest2) := h2 in
                ((g1 ++ g2)%list, (m1 ++ m2)%string, rest2))
             (re_run r2 rest1).
Proof. intros H. cbn [re_run]. rewrite H. cbn. by rewrite app_nil_r. Qed.

Lemma run_month (m : Z) (t : string) :
  1 <= m <= 12 ->
  re_run (re_m · RLit "/")%re (zpad 2 m ++ "/" ++ t)
  = [([("m", zpad 2 m)], (zpad 2 m ++ "/")%string, t)].
Proof. intros Hm. enumerate m 1 12; by vm_compute. Qed.

Lemma run_day (d k : Z) (t : string) :
  1 <= d <= 31 -> 0 <= k < 10 ->
  re_run (re_d · RPlus is_space)%re (zpad 2 d ++ " " ++ String (digit_char k) t)
  = [([("d", zpad 2 d)], (zpad 2 d ++ " ")%string, String (digit_char k) t)].
Proof. intros Hd Hk. enumerate d 1 31; enumerate k 0 10; by vm_compute. Qed.

Lemma run_hour (H : Z) (t : string) :
  0 <= H < 24 ->
  re_run (re_H · RLit ":")%re (zpad 2 H ++ ":" ++ t)
  = [([("H", zpad 2 H)], (zpad 2 H ++ ":")%string, t)].
Proof. intros HH. enumerate H 0 24; by vm_compute. Qed.

Lemma run_minute (Mi : Z) :
  0 <= Mi < 60 ->
  List.hd_error (re_run re_M (zpad 2 Mi))
  = Some ([("M", zpad 2 Mi)], zpad 2 Mi, EmptyString).
Proof. intros HM. enumerate Mi 0 60; by vm_compute. Qed.

Lemma match_short_date (m d H Mi : Z) :
  1 <= m <= 12 -> 1 <= d <= 31 -> 0 <= H < 24 -> 0 <= Mi < 60 ->
  re_match format_regex (short_date m d H Mi)
  = Some ([("m", zpad 2 m); ("d", zpad 2 d); ("H", zpad 2 H); ("M", zpad 2 Mi)],
          short_date m d H Mi, EmptyString).
Proof.
  intros Hm Hd HH HM. unfold re_match, format_regex, short_date.
  rewrite (re_run_cat_single _ _ _ _ _ _ (run_month m _ Hm)).
  rewrite (zpad2_cons H).
  rewrite (re_run_cat_single _ _ _ _ _ _
             (run_day d (H / 10 mod 10) _ Hd (Z.mod_pos_bound _ 10 eq_refl))).
  rewrite <- (zpad2_cons H).
  rewrite (re_run_cat_single _ _ _ _ _ _ (run_hour H _ HH)).
  pose proof (run_minute Mi HM) as HMi.
  destruct (re_run re_M (zpad 2 Mi)) as [|[[g mt] rest] l]; [done|].
  cbn in HMi. injection HMi as -> -> ->. cbn.
  reflexivity.
Qed.

Lemma strptime_short_date (m d H Mi : Z) :
  valid_date 1900 m d = true -> valid_time H Mi 0 0 = true ->
  strptime (JStr (short_date m d H Mi)) = Return (mkDatetime 1900 m d H Mi 0 0).
Proof.
  intros Hdate Htime.
  assert (Hr : (1 <= m <= 12) /\ (1 <= d <= 31) /\ (0 <= H < 24) /\ (0 <= Mi < 60)).
  { pose proof Hdate as Hd. pose proof Htime as Ht.
    unfold_valid Hd. unfold_valid Ht.
    assert (days_in_month 1900 m <= 31)
      by (unfold days_in_month; repeat case_match; lia).
    lia. }
  destruct Hr as (Hm & Hd & HH & HM).
  unfold strptime. rewrite match_short_date by done.
  cbn [group List.find fst snd String.eqb Ascii.eqb Bool.eqb].
  rewrite !py_int_zpad2 by lia.
  assert (Hfix : ((m =? 2) && (d =? 29))%bool = false).
  { destruct (m =? 2) eqn:E2; [|done]. apply Z.eqb_eq in E2 as ->.
    destruct (d =? 29) eqn:E29; [|done]. apply Z.eqb_eq in E29 as ->.
    by vm_compute in Hdate. }
  rewrite Hfix, Hdate. unfold datetime_new. by rewrite Hdate, Htime.
Qed.

(** 29 February never parses: the year-less date is built in 1900. *)
Lemma strptime_leap_day (H Mi : Z) :
  valid_time H Mi 0 0 = true ->
  strptime (JStr (short_date 2 29 H Mi))
  = Raise (ValueError "field out of range").
Proof.
  intros Htime.
  assert (Hr : (0 <= H < 24) /\ (0 <= Mi < 60))
    by (pose proof Htime as Ht; unfold_valid Ht; lia).
  destruct Hr as (HH & HM).
  unfold strptime. rewrite match_short_date by (done || lia).
  cbn [group List.find fst snd String.eqb Ascii.eqb Bool.eqb].
  rewrite !py_int_zpad2 by lia. reflexivity.
Qed.

(** ** fix_date_short, one step at a time *)

Section FixDateShort.

Variable env : environment.

Lemma digit_char_not_letter (k : Z) :
  0 <= k < 10 ->
  Ascii.eqb (digit_char k) "T" = false /\ Ascii.eqb (digit_char k) "Y" = false.
Proof. intros Hk. enumerate k 0 10; by vm_compute. Qed.

(** What [strftime('%m/%d')] produces starts with a digit, so it is
    neither "Today..." nor "Yesterday...". *)
Lemma strftime_md_not_word (now : datetime) (t : string) :
  String.eqb (str_take 5 (strftime_md now ++ t)) "Today" = false
  /\ String.eqb (str_take 9 (strftime_md now ++ t)) "Yesterday" = false.
Proof.
  assert (strftime_md now ++ t
          = String (digit_char (month now / 10 mod 10))
              (String (digit_char (month now mod 10)) ("/" ++ zpad 2 (day now) ++ t)))%string
    as -> by reflexivity.
  destruct (digit_char_not_letter (month now / 10 mod 10)) as [HT HY];
    [by apply Z.mod_pos_bound|].
  unfold str_take. cbn [substring String.eqb]. by rewrite HT, HY.
Qed.

Lemma strptime_raises (v : json) (e : exception) :
  strptime v = Raise e -> exception_class e = "ValueError" \/ exception_class e = "TypeError".
Proof.
  unfold strptime, datetime_new. intros H.
  repeat case_match; simplify_eq; cbn; auto.
Qed.

Lemma replace_year_raises (t : datetime) (y : Z) (e : exception) :
  replace_year t y = Raise e -> exists msg, e = ValueError msg.
Proof.
  unfold replace_year, datetime_new. intros H. case_match; simplify_eq. eauto.
Qed.

Lemma days_in_month_1900 (y m : Z) : days_in_month 1900 m <= days_in_month y m.
Proof.
  unfold days_in_month. change (is_leap 1900) with false.
  repeat case_match; lia.
Qed.

(** A date that parsed in 1900 is a date of every year. *)
Lemma replace_year_parsed (v : json) (parsed : datetime) (y : Z) :
  strptime v = Return parsed -> 1 <= y <= 9999 ->
  replace_year parsed y
  = Return (mkDatetime y (month parsed) (day parsed) (hour parsed) (minute parsed) 0 0).
Proof.
  unfold strptime, datetime_new. intros H Hy.
  repeat case_match; simplify_eq.
  all: unfold replace_year, datetime_new; cbn [month day hour minute second microsecond].
  all: match goal with
  | Hv : (valid_date 1900 ?m ?d && valid_time ?h ?mi 0 0)%bool = true |- _ =>
      apply Bool.andb_true_iff in Hv as [Hd Ht];
      assert (Hd' : valid_date y m d = true);
      [ pose proof (days_in_month_1900 y m); unfold_valid Hd; unfold valid_date;
        rewrite ?Bool.andb_true_iff, ?Z.leb_le; lia
      | by rewrite Hd', Ht ]
  end.
Qed.

Lemma fix_date_short_parsed (n : nat) (v : json) (parsed replaced : datetime) (w : world) :
  strptime v = Return parsed ->
  replace_year parsed (year (clock env (clock_reads w))) = Return replaced ->
  fix_date_short_fuel env (S n) v w = (Return (isoformat replaced), tick w).
Proof.
  intros Hp Hr. cbn [fix_date_short_fuel]. unfold fix_date_short_body. rewrite Hp.
  unfold bind, datetime_now. by rewrite Hr.
Qed.

Lemma fix_date_short_today (n : nat) (s msg : string) (w : world) :
  strptime (JStr s) = Raise (ValueError msg) ->
  str_take 5 s = "Today" ->
  fix_date_short_fuel env (S n) (JStr s) w
  = fix_date_short_fuel env n
      (JStr (strftime_md (clock env (clock_reads w)) ++ str_drop 5 s)) (tick w).
Proof.
  intros Hp Ht. cbn [fix_date_short_fuel]. unfold fix_date_short_body.
  rewrite Hp, Ht. reflexivity.
Qed.

Lemma fix_date_short_yesterday (n : nat) (s msg : string) (w : world) :
  strptime (JStr s) = Raise (ValueError msg) ->
  str_take 9 s = "Yesterday" ->
  fix_date_short_fuel env (S n) (JStr s) w
  = fix_date_short_fuel env n
      (JStr (strftime_md (clock env (clock_reads w)) ++ str_drop 9 s)) (tick w).
Proof.
  intros Hp Hy. cbn [fix_date_short_fuel]. unfold fix_date_short_body.
  rewrite Hp, Hy.
  assert (String.eqb (str_take 5 s) "Today" = false) as ->; [|reflexivity].
  apply String.eqb_neq. intros Ht.
  destruct s as [|c s]; [done|]. unfold str_take in *. cbn in Ht, Hy. congruence.
Qed.

(** The handler's missing [else]: a string that does not parse and is
    neither "Today..." nor "Yesterday..." leaves the handler with [result]
    unbound. *)
Lemma fix_date_short_unrecognised (n : nat) (s msg : string) (w : world) :
  strptime (JStr s) = Raise (ValueError msg) ->
  String.eqb (str_take 5 s) "Today" = false ->
  String.eqb (str_take 9 s) "Yesterday" = false ->
  fix_date_short_fuel env (S n) (JStr s) w = (Raise (UnboundLocalError "result"), w).
Proof.
  intros Hp Ht Hy. cbn [fix_date_short_fuel]. unfold fix_date_short_body.
  by rewrite Hp, Ht, Hy.
Qed.

(** The body looks at [recur] only on what [strftime] produced. *)
Lemma fix_date_short_body_ext (recur1 recur2 : json -> M string) (v : json) (w : world) :
  (forall now t w', recur1 (JStr (strftime_md now ++ t)) w'
                    = recur2 (JStr (strftime_md now ++ t)) w') ->
  fix_date_short_body env recur1 v w = fix_date_short_body env recur2 v w.
Proof.
  intros Hrec. unfold fix_date_short_body, bind, datetime_now.
  repeat case_match; simplify_eq; try done; apply Hrec.
Qed.

(** After a substitution no further recursion happens: one unit of fuel
    does what any amount does. *)
Lemma fix_date_short_substituted (n : nat) (now : datetime) (t : string) (w : world) :
  fix_date_short_fuel env (S n) (JStr (strftime_md now ++ t)) w
  = fix_date_short_fuel env 1 (JStr (strftime_md now ++ t)) w.
Proof.
  destruct (strftime_md_not_word now t) as [HT HY].
  cbn [fix_date_short_fuel]. unfold fix_date_short_body. rewrite HT, HY. reflexivity.
Qed.

(** Two units of fuel are enough for every input. *)
Lemma fix_date_short_fuel_enough (n : nat) (v : json) (w : world) :
  fix_date_short_fuel env (S (S n)) v w = fix_date_short env v w.
Proof.
  unfold fix_date_short. cbn [fix_date_short_fuel].
  apply fix_date_short_body_ext. intros now t w'.
  apply (fix_date_short_substituted n).
Qed.

(** ... and the call never runs out of it: [fix_date_short] is total. *)
Lemma fix_date_short_total (v : json) (w : world) :
  fst (fix_date_short env v w) <> Raise RecursionError.
Proof.
  assert (Hinner : forall now t w',
    fst (fix_date_short_fuel env 1 (JStr (strftime_md now ++ t)) w') <> Raise RecursionError).
  { intros now t w'. destruct (strftime_md_not_word now t) as [HT HY].
    cbn [fix_date_short_fuel]. unfold fix_date_short_body. rewrite HT, HY.
    unfold bind, datetime_now, fall_through, ret, raise.
    destruct (strptime _) as [p|e] eqn:Hp.
    - destruct (replace_year _ _) as [r|e] eqn:Hr; cbn; [done|].
      apply replace_year_raises in Hr as [msg ->]. done.
    - apply strptime_raises in Hp.
      destruct e; cbn; try done; destruct Hp; discriminate. }
  unfold fix_date_short. cbn [fix_date_short_fuel].
  unfold fix_date_short_body at 1. unfold bind, datetime_now, fall_through, ret, raise.
  destruct (strptime v) as [p|e] eqn:Hp.
  - destruct (replace_year _ _) as [r|e] eqn:Hr; cbn; [done|].
    apply replace_year_raises in Hr as [msg ->].
    repeat case_match; cbn; try done; apply Hinner.
  - apply strptime_raises in Hp.
    destruct e; cbn; try done; try (destruct Hp; discriminate);
      repeat case_match; cbn; try done; apply Hinner.
Qed.

(** "MM/DD HH:MM" with a month and day that exist in 1900: the year of
    the clock is attached, the other fields are those of the input. *)
Lemma fix_date_short_month_day (m d H Mi : Z) (w : world) :
  valid_date 1900 m d = true -> valid_time H Mi 0 0 = true ->
  1 <= year (clock env (clock_reads w)) <= 9999 ->
  fix_date_short env (JStr (short_date m d H Mi)) w
  = (Return (isoformat (mkDatetime (year (clock env (clock_reads w))) m d H Mi 0 0)),
     tick w).
Proof.
  intros Hd Ht Hy. unfold fix_date_short.
  pose proof (strptime_short_date m d H Mi Hd Ht) as Hp.
  apply (fix_date_short_parsed _ _ _ _ _ Hp).
  by rewrite (replace_year_parsed _ _ _ Hp Hy).
Qed.

(** 29 February as input: never converted, whatever the clock says. *)
Lemma fix_date_short_leap_day (H Mi : Z) (w : world) :
  valid_time H Mi 0 0 = true ->
  fix_date_short env (JStr (short_date 2 29 H Mi)) w
  = (Raise (UnboundLocalError "result"), w).
Proof.
  intros Ht. apply (fix_date_short_unrecognised 1 _ _ w (strptime_leap_day H Mi Ht));
    reflexivity.
Qed.

(** "Today HH:MM" and "Yesterday HH:MM": the month and day of the clock,
    not decremented for "Yesterday"; the year is that of the second
    reading of the clock. *)
Lemma fix_date_short_relative (word : string) (H Mi : Z) (w : world) :
  word = "Today" \/ word = "Yesterday" ->
  let now := clock env (clock_reads w) in
  let later := clock env (S (clock_reads w)) in
  valid_date 1900 (month now) (day now) = true -> valid_time H Mi 0 0 = true ->
  1 <= year later <= 9999 ->
  fix_date_short env (JStr (relative_date word H Mi)) w
  = (Return (isoformat (mkDatetime (year later) (month now) (day now) H Mi 0 0)),
     tick (tick w)).
Proof.
  intros Hw now later Hd Ht Hy. unfold fix_date_short.
  assert (Hsub : fix_date_short_fuel env 2 (JStr (relative_date word H Mi)) w
                 = fix_date_short_fuel env 1
                     (JStr (short_date (month now) (day now) H Mi)) (tick w)).
  { destruct Hw as [-> | ->].
    - by rewrite (fix_date_short_today 1 _ "time data does not match format").
    - by rewrite (fix_date_short_yesterday 1 _ "time data does not match format"). }
  rewrite Hsub.
  pose proof (strptime_short_date _ _ H Mi Hd Ht) as Hp.
  apply (fix_date_short_parsed _ _ _ _ _ Hp).
  change (clock env (clock_reads (tick w))) with later.
  by rewrite (replace_year_parsed _ _ _ Hp Hy).
Qed.

End FixDateShort.

(** ** The handler without an [else] *)

(** C1, at the input the specification names: "not-a-date" does not end in
    a parse error that carries the string but in the [UnboundLocalError] of
    [return result.isoformat()]; nothing is read from the clock. *)
Theorem fix_date_short_not_a_date (env : environment) (w : world) :
  fix_date_short env (JStr "not-a-date") w = (Raise (UnboundLocalError "result"), w)
  /\ exception_class (UnboundLocalError "result") = "UnboundLocalError"
  /\ ~ In "not-a-date" (exception_args (UnboundLocalError "result")).
Proof.
  split; [|split].
  - by apply (fix_date_short_unrecognised env 1 _ "time data does not match format").
  - reflexivity.
  - cbn. intros [H | []]. discriminate.
Qed.

(** ** 29 February *)

(** C3, on 29 February 2024: "Today 14:30" becomes "02/29 14:30", which
    [strptime] rejects (it builds the date in 1900), and the call ends in
    the [UnboundLocalError] instead of 2024-02-29T14:30:00. *)
Theorem fix_date_short_today_on_leap_day (env : environment) (w : world) :
  valid_datetime leap_day_2024 = true
  /\ fix_date_short (with_clock (fun _ => leap_day_2024) env) (JStr "Today 14:30") w
     = (Raise (UnboundLocalError "result"), tick w).
Proof.
  split; [reflexivity|]. unfold fix_date_short.
  rewrite (fix_date_short_today _ 1 _ "time data does not match format") by done.
  by apply (fix_date_short_unrecognised _ 0 _ "field out of range").
Qed.

(** C5, in the year 2024: the input "02/29 10:00" names a day of that year
    and is not converted. *)
Theorem fix_date_short_leap_day_input (env : environment) (w : world) :
  valid_date 2024 2 29 = true
  /\ fix_date_short (with_clock (fun _ => march_5_2024) env) (JStr "02/29 10:00") w
     = (Raise (UnboundLocalError "result"), w).
Proof.
  split; [reflexivity|].
  by apply (fix_date_short_unrecognised _ 1 _ "field out of range").
Qed.

(** The examples of the specification, away from 29 February. *)
Example fix_date_short_today_example (env : environment) (w : world) :
  fix_date_short (with_clock (fun _ => march_5_2024) env) (JStr "Today 14:30") w
  = (Return "2024-03-05T14:30:00", tick (tick w)).
Proof. by vm_compute. Qed.

Example fix_date_short_yesterday_example (env : environment) (w : world) :
  fix_date_short (with_clock (fun _ => march_5_2024) env) (JStr "Yesterday 09:00") w
  = (Return "2024-03-05T09:00:00", tick (tick w)).
Proof. by vm_compute. Qed.

Example fix_date_short_december_example (env : environment) (w : world) :
  fix_date_short (with_clock (fun _ => march_5_2024) env) (JStr "12/25 08:15") w
  = (Return "2024-12-25T08:15:00", tick w).
Proof. by vm_compute. Qed.

(** ** _validate_response *)

Section Validate.

Variable env : environment.

Lemma validate_response_200 (r : response) (name : string) (w : world) :
  resp_attrs r !! "status" = Some (VInt 200) ->
  resp_attrs r !! "json" = Some (VMethod name) ->
  _validate_response env r w = (resp_json r, w).
Proof.
  intros Hs Hj. unfold _validate_response, response_json, response_getattr, bind.
  rewrite Hs. cbn. rewrite Hj. cbn. unfold lift. by destruct (resp_json r).
Qed.

(** The 200 branch on the response object of a message: the call is
    [json()] of the message. *)
Lemma validate_response_message (m : http_message) (w : world) :
  msg_status m = 200 ->
  _validate_response env (ClientResponse env m) w = (ClientResponse_json env m, w).
Proof.
  intros Hs. unfold ClientResponse. rewrite Hs.
  by rewrite (validate_response_200 (aiohttp_response 200 _) "json" w).
Qed.

(** C6, as the code has it: on status 200, when the Content-Type names a
    JSON type and the body is not blank, the body is stripped of the white
    space around it, decoded to text and parsed by [json.loads], and what
    the parser gives is what the call gives: the parsed value, or the
    parser's own exception; a body that cannot be decoded to text ends the
    call in the codec's exception. *)
Theorem validate_response_parses_body (m : http_message) (w : world) :
  msg_status m = 200 -> msg_json_type m = true ->
  bytes_strip (msg_body m) <> EmptyString ->
  (forall text,
     msg_decode m (bytes_strip (msg_body m)) = Return text ->
     (forall v, json_loads env text = Return v ->
        _validate_response env (ClientResponse env m) w = (Return v, w))
     /\ (forall e, json_loads env text = Raise e ->
           _validate_response env (ClientResponse env m) w = (Raise e, w)))
  /\ (forall e,
        msg_decode m (bytes_strip (msg_body m)) = Raise e ->
        _validate_response env (ClientResponse env m) w = (Raise e, w)).
Proof.
  intros Hs Ht Hb. rewrite (validate_response_message m w Hs).
  unfold ClientResponse_json. rewrite Ht.
  destruct (bytes_strip (msg_body m)) as [|c stripped]; [done|].
  split.
  - intros text ->. split; by intros ? ->.
  - by intros e ->.
Qed.

(** With another Content-Type the body is not looked at. *)
Lemma validate_response_content_type (m : http_message) (w : world) :
  msg_status m = 200 -> msg_json_type m = false ->
  _validate_response env (ClientResponse env m) w
  = (Raise (ExternalError "ContentTypeError"
              "Attempt to decode JSON with unexpected mimetype"), w).
Proof.
  intros Hs Ht. rewrite (validate_response_message m w Hs).
  unfold ClientResponse_json. by rewrite Ht.
Qed.

(** A blank body is not handed to the parser: the call returns [None]. *)
Lemma validate_response_blank (m : http_message) (w : world) :
  msg_status m = 200 -> msg_json_type m = true ->
  bytes_strip (msg_body m) = EmptyString ->
  _validate_response env (ClientResponse env m) w = (Return JNull, w).
Proof.
  intros Hs Ht Hb. rewrite (validate_response_message m w Hs).
  unfold ClientResponse_json. by rewrite Ht, Hb.
Qed.

Lemma aiohttp_response_attrs (status : Z) (body : result json) :
  resp_attrs (aiohttp_response status body) !! "status" = Some (VInt status)
  /\ resp_attrs (aiohttp_response status body) !! "json" = Some (VMethod "json")
  /\ resp_attrs (aiohttp_response status body) !! "text" = Some (VMethod "text")
  /\ resp_attrs (aiohttp_response status body) !! "status_code" = None.
Proof. by vm_compute. Qed.

(** On the transport's own response class the error branch stops at the
    first attribute it reads. *)
Lemma validate_response_aiohttp (status : Z) (body : result json) (w : world) :
  status <> 200 ->
  _validate_response env (aiohttp_response status body) w
  = (Raise (AttributeError "status_code"), w).
Proof.
  intros Hs. destruct (aiohttp_response_attrs status body) as (Hst & _ & _ & Hc).
  generalize dependent (aiohttp_response status body). intros r Hst Hc.
  unfold _validate_response, response_getattr, bind.
  rewrite Hst. cbn -[Z.eqb]. apply Z.eqb_neq in Hs. by rewrite Hs, Hc.
Qed.

(** What the error branch does on a response object that has the two
    attributes it reads ([status_code] and a [str] in [text]): the
    [ResponseError] of line 16, or the decoder's failure. *)
Lemma validate_response_error_branch (r : response) (status : Z) (code : pyval)
    (body : string) (w : world) :
  resp_attrs r !! "status" = Some (VInt status) -> status <> 200 ->
  resp_attrs r !! "status_code" = Some code ->
  resp_attrs r !! "text" = Some (VStr body) ->
  _validate_response env r w
  = (match json_loads env body with
     | Return parsed => Raise (ResponseError code parsed)
     | Raise e => Raise e
     end, w).
Proof.
  intros Hs Hne Hc Ht. unfold _validate_response, response_getattr, bind.
  rewrite Hs. cbn -[Z.eqb]. apply Z.eqb_neq in Hne. rewrite Hne, Hc. cbn. rewrite Ht. cbn.
  unfold lift. by destruct (json_loads env body).
Qed.

End Validate.

(** C2, on the specification's own example: status 403 with the body
    {"msg": "bad"}.  The call ends in an [AttributeError] (the response has
    [status], not [status_code]), not in a [ResponseError]. *)
Theorem validate_response_403 (env : environment) (w : world) :
  _validate_response env (aiohttp_response 403 (Return msg_bad)) w
  = (Raise (AttributeError "status_code"), w).
Proof. by apply validate_response_aiohttp. Qed.

(** C6 as the specification words it, refuted twice, both times on a
    response with status 200.  The body {"a":1} sent as plain text is, once
    stripped and decoded, text the parser accepts, and the call raises
    [ContentTypeError] instead of returning the object.  A body of two
    blanks is no JSON (the parser rejects it), and the call returns [None]
    instead of failing. *)
Lemma validate_response_plain_text :
  msg_status plain_text_message = 200
  /\ msg_decode plain_text_message (bytes_strip (msg_body plain_text_message))
     = Return text_a_is_1
  /\ json_loads decoding_env text_a_is_1 = Return a_is_1
  /\ _validate_response decoding_env (ClientResponse decoding_env plain_text_message)
       example_world
     = (Raise (ExternalError "ContentTypeError"
                 "Attempt to decode JSON with unexpected mimetype"), example_world)
  /\ msg_status blank_message = 200
  /\ msg_decode blank_message (msg_body blank_message) = Return "  "
  /\ json_loads decoding_env "  "
     = Raise (ExternalError "JSONDecodeError" "Expecting value")
  /\ _validate_response decoding_env (ClientResponse decoding_env blank_message)
       example_world
     = (Return JNull, example_world).
Proof. repeat split; by vm_compute. Qed.

Lemma validate_response_parses_body_witness :
  msg_status json_message = 200 /\ msg_json_type json_message = true
  /\ bytes_strip (msg_body json_message) = text_a_is_1
  /\ _validate_response decoding_env (ClientResponse decoding_env json_message)
       example_world
     = (Return a_is_1, example_world)
  /\ _validate_response decoding_env (ClientResponse decoding_env html_message)
       example_world
     = (Raise (ExternalError "JSONDecodeError" "Expecting value"), example_world).
Proof.
  split; [reflexivity|]. split; [reflexivity|]. split; [by vm_compute|]. split.
  - assert (Hb : bytes_strip (msg_body json_message) <> EmptyString) by (by vm_compute).
    destruct (validate_response_parses_body decoding_env json_message example_world
                eq_refl eq_refl Hb) as [Hparse _].
    destruct (Hparse text_a_is_1) as [Hvalue _]; [by vm_compute|].
    apply Hvalue. by vm_compute.
  - assert (Hb : bytes_strip (msg_body html_message) <> EmptyString) by (by vm_compute).
    destruct (validate_response_parses_body decoding_env html_message example_world
                eq_refl eq_refl Hb) as [Hparse _].
    destruct (Hparse "<html>") as [_ Herror]; [by vm_compute|].
    apply Herror. by vm_compute.
Defined.

(** ** The Session's attributes *)

Create HintDb frame.

Section Frame.

Variable env : environment.

Lemma frame_ret {A} (a : A) : frame (ret a).
Proof. by intros w. Qed.

Lemma frame_raise {A} (e : exception) : frame (@raise A e).
Proof. by intros w. Qed.

Lemma frame_lift {A} (r : result A) : frame (lift r).
Proof. by intros w. Qed.

Lemma frame_bind {A B} (m : M A) (k : A -> M B) :
  frame m -> (forall a, frame (k a)) -> frame (bind m k).
Proof.
  intros Hm Hk w. unfold bind. specialize (Hm w).
  destruct (m w) as [[a|e] w']; cbn in *; [|done].
  by rewrite Hk.
Qed.

Lemma frame_getattr_self (name : string) : frame (getattr_self name).
Proof. intros w. unfold getattr_self. by destruct (self_attrs w !! name). Qed.

Lemma frame_datetime_now : frame (datetime_now env).
Proof. by intros w. Qed.

Lemma frame_send (h : nat) (req : request) : frame (send env h req).
Proof. by intros w. Qed.

Lemma frame_client_method (session : pyval) (name : string) :
  frame (client_method session name).
Proof. destruct session; apply frame_ret || apply frame_raise. Qed.

Lemma frame_response_getattr (r : response) (name : string) :
  frame (response_getattr r name).
Proof.
  unfold response_getattr. destruct (resp_attrs r !! name);
    apply frame_ret || apply frame_raise.
Qed.

Hint Resolve frame_ret frame_raise frame_lift frame_getattr_self frame_datetime_now
  frame_send frame_client_method frame_response_getattr : frame.

(** Binds, branches and the primitives above. *)
Ltac frame_step :=
  first
    [ progress cbv zeta
    | solve [auto with frame]
    | apply frame_bind; [|intros ?]
    | match goal with
      | |- frame (match ?x with _ => _ end) => destruct x
      | |- frame (if ?b then _ else _) => destruct b
      end ].

Ltac frame := repeat frame_step.

Lemma frame_validate_response (r : response) : frame (_validate_response env r).
Proof. unfold _validate_response, response_json, ResponseError_init. frame. Qed.

Lemma frame_fix_date_short_fuel (fuel : nat) (v : json) :
  frame (fix_date_short_fuel env fuel v).
Proof.
  revert v. induction fuel as [|fuel IH]; intros v; cbn [fix_date_short_fuel].
  - apply frame_raise.
  - unfold fix_date_short_body, fall_through. frame.
Qed.

Lemma frame_fix_date_short (v : json) : frame (fix_date_short env v).
Proof. apply frame_fix_date_short_fuel. Qed.

Hint Resolve frame_validate_response frame_fix_date_short : frame.

Lemma frame_fix_rows (rows : list json) : frame (fix_rows env rows).
Proof. induction rows as [|row rows IH]; cbn [fix_rows]; frame. Qed.

Lemma frame_vid_cookie : frame (vid_cookie env).
Proof. unfold vid_cookie. frame. Qed.

Hint Resolve frame_fix_rows frame_vid_cookie : frame.

Lemma frame_run_operation (op : operation) : frame (run_operation env op).
Proof.
  destruct op; cbn [run_operation];
    unfold get_arm_state, get_temperature, get_ethernet_status, get_lock_devices,
      get_lock_status, set_arm_state, get_history, lock_doorlock, unlock_doorlock,
      get_lock_config, logout;
    frame.
Qed.

Lemma frame_run_operations (ops : list operation) (w : world) :
  self_attrs (snd (run_operations env ops w)) = self_attrs w.
Proof.
  revert w. induction ops as [|op ops IH]; intros w; cbn [run_operations]; [done|].
  pose proof (frame_run_operation op w) as Hop.
  destruct (run_operation env op w) as [r w']. cbn in Hop.
  specialize (IH w'). destruct (run_operations env ops w') as [rs w''].
  cbn in *. congruence.
Qed.

(** What [__init__] leaves in a new instance: four attributes, no more. *)
Lemma Session_create_attrs (username password panel : pyval) (w : world) :
  self_attrs (snd (Session_create username password panel w))
  = <["session" := VClient (clients w)]>
      (<["_panel" := panel]> (<["_password" := password]> (<["_username" := username]> ∅))).
Proof. reflexivity. Qed.

Lemma getattr_self_found (name : string) (v : pyval) (w : world) :
  self_attrs w !! name = Some v -> getattr_self name w = (Return v, w).
Proof. intros H. unfold getattr_self. by rewrite H. Qed.

Lemma getattr_self_missing (name : string) (w : world) :
  self_attrs w !! name = None -> getattr_self name w = (Raise (AttributeError name), w).
Proof. intros H. unfold getattr_self. by rewrite H. Qed.

End Frame.

(** C9: no operation assigns to an attribute of the Session.  After any
    sequence of calls, whatever they returned or raised, the instance
    dictionary is the one [__init__] built: username, password, panel and
    the client handle. *)
Theorem session_state_unchanged (env : environment) :
  (forall op w, self_attrs (snd (run_operation env op w)) = self_attrs w)
  /\ (forall ops username password panel w0,
        self_attrs
          (snd (run_operations env ops
                  (snd (Session_create username password panel w0))))
        = <["session" := VClient (clients w0)]>
            (<["_panel" := panel]>
               (<["_password" := password]> (<["_username" := username]> ∅)))).
Proof.
  split.
  - intros op w. apply frame_run_operation.
  - intros ops username password panel w0.
    by rewrite frame_run_operations, Session_create_attrs.
Qed.

(** C10: [_giid] and [_vid] are read by [set_arm_state], [get_lock_config]
    and [logout] and assigned nowhere.  On a Session made by [__init__],
    at any later moment, each of the three raises [AttributeError] and the
    world is as before the call: no request was issued. *)
Theorem giid_vid_never_assigned (env : environment) (ops : list operation)
    (username password panel : pyval) (w0 : world) :
  let w := snd (run_operations env ops
                  (snd (Session_create username password panel w0))) in
  (forall code state,
     set_arm_state env code state w = (Raise (AttributeError "_giid"), w))
  /\ (forall device_label,
        get_lock_config env device_label w = (Raise (AttributeError "_giid"), w))
  /\ logout env w = (Raise (AttributeError "_vid"), w).
Proof.
  intros w.
  assert (Hattrs : self_attrs w
                   = <["session" := VClient (clients w0)]>
                       (<["_panel" := panel]>
                          (<["_password" := password]> (<["_username" := username]> ∅))))
    by (subst w; by rewrite frame_run_operations, Session_create_attrs).
  assert (Hs : self_attrs w !! "session" = Some (VClient (clients w0)))
    by (rewrite Hattrs; by vm_compute).
  assert (Hg : self_attrs w !! "_giid" = None) by (rewrite Hattrs; by vm_compute).
  assert (Hv : self_attrs w !! "_vid" = None) by (rewrite Hattrs; by vm_compute).
  clearbody w. clear Hattrs.
  repeat split; intros;
    unfold set_arm_state, get_lock_config, logout, vid_cookie, bind;
    rewrite (getattr_self_found _ _ _ Hs); cbn [client_method ret];
    rewrite ?(getattr_self_missing _ _ Hg), ?(getattr_self_missing _ _ Hv);
    reflexivity.
Qed.

(** ** Operations on a 200 response *)

Lemma serial_is_spec (label : string) (i : json) :
  serial_is label i = true <-> py_getitem i "serialNo" = Return (JStr label).
Proof.
  unfold serial_is. destruct (py_getitem i "serialNo") as [v|e]; [|done].
  destruct v; cbn; try done.
  rewrite String.eqb_eq. split; congruence.
Qed.

Lemma select_serial_filter (label : string) (items : list json) :
  forallb has_serial items = true ->
  select_serial label items = Return (List.filter (serial_is label) items).
Proof.
  induction items as [|i items IH]; cbn [forallb select_serial List.filter]; [done|].
  intros [Hi Hrest]%Bool.andb_true_iff. rewrite (IH Hrest).
  unfold has_serial in Hi. unfold serial_is.
  by destruct (py_getitem i "serialNo").
Qed.

Section Operations.

Variable env : environment.
Variables (username password panel : pyval) (handle : nat).

Ltac start_request Hsession Htransport :=
  destruct Hsession as (Hs & Hu & Hp & Hn);
  unfold bind;
  rewrite (getattr_self_found _ _ _ Hs); cbn [client_method ret];
  rewrite (getattr_self_found _ _ _ Hu), (getattr_self_found _ _ _ Hp),
    (getattr_self_found _ _ _ Hn);
  unfold send; rewrite Htransport.

Ltac accept_200 :=
  match goal with
  | |- context [_validate_response env (aiohttp_response 200 ?b) ?w] =>
      rewrite (validate_response_200 env (aiohttp_response 200 b) "json" w eq_refl eq_refl);
      cbn [resp_json aiohttp_response]
  end.

(** C4, as the code has it: the field that is normalised is [timeex]; every
    other field of the payload, [time] among them, is returned as it
    came. *)
Theorem get_arm_state_timeex (w w' : world) (payload : gmap string json)
    (timeex : json) (fixed : string) :
  let req := mkRequest GET (urls_status env username password panel) [] [] None in
  session_of username password panel handle w ->
  transport env (length (requests w)) req
  = Return (aiohttp_response 200 (Return (JDict payload))) ->
  payload !! "timeex" = Some timeex ->
  fix_date_short env timeex (sent req w) = (Return fixed, w') ->
  get_arm_state env w = (Return (JDict (<["timeex" := JStr fixed]> payload)), w')
  /\ (forall key, key <> "timeex" ->
        (<["timeex" := JStr fixed]> payload) !! key = payload !! key).
Proof.
  intros req Hsession Htransport Hfield Hfix. subst req. split.
  - unfold get_arm_state. start_request Hsession Htransport. accept_200.
    unfold lift, py_getitem. rewrite Hfield. by rewrite Hfix.
  - intros key Hkey. by rewrite lookup_insert_ne.
Qed.

(** C7: with a label, the reading list of the result is the list of the
    payload's readings whose [serialNo] is the label, in their order (none,
    when none matches); without a label the payload is returned as it
    came. *)
Theorem get_temperature_filters (w : world) (payload : json) :
  let req := mkRequest GET (urls_get_temperature env username password panel) [] [] None in
  session_of username password panel handle w ->
  transport env (length (requests w)) req
  = Return (aiohttp_response 200 (Return payload)) ->
  get_temperature env None w = (Return payload, sent req w)
  /\ (forall label d items,
        payload = JDict d ->
        d !! "temperatureComponentList" = Some (JList items) ->
        forallb has_serial items = true ->
        get_temperature env (Some label) w
        = (Return (JDict (<["temperatureComponentList" :=
                              JList (List.filter (serial_is label) items)]> d)),
           sent req w)).
Proof.
  intros req Hsession Htransport. subst req. split.
  - unfold get_temperature. start_request Hsession Htransport. by accept_200.
  - intros label d items -> Hlist Hitems.
    unfold get_temperature. start_request Hsession Htransport. accept_200.
    unfold lift, py_getitem. rewrite Hlist. cbn [py_iter].
    by rewrite (select_serial_filter label items Hitems).
Qed.

(** The loop of [get_history], row by row. *)
Lemma fix_rows_cons (row : gmap string json) (rest rest' : list json) (time : json)
    (fixed : string) (w w1 w2 : world) :
  row !! "time" = Some time ->
  fix_date_short env time w = (Return fixed, w1) ->
  fix_rows env rest w1 = (Return rest', w2) ->
  fix_rows env (JDict row :: rest) w
  = (Return (JDict (<["time" := JStr fixed]> row) :: rest'), w2).
Proof.
  intros Ht Hfix Hrest. cbn [fix_rows]. unfold bind, lift, py_getitem.
  rewrite Ht, Hfix. cbn [py_setitem]. by rewrite Hrest.
Qed.

(** A row whose [time] is not converted ends the call with the error of
    [fix_date_short]; the row is not passed over. *)
Lemma fix_rows_cons_raise (row : gmap string json) (rest : list json) (time : json)
    (e : exception) (w w1 : world) :
  row !! "time" = Some time ->
  fix_date_short env time w = (Raise e, w1) ->
  fix_rows env (JDict row :: rest) w = (Raise e, w1).
Proof.
  intros Ht Hfix. cbn [fix_rows]. unfold bind, lift, py_getitem.
  by rewrite Ht, Hfix.
Qed.

Lemma fix_rows_later_raise (row : gmap string json) (rest : list json) (time : json)
    (fixed : string) (e : exception) (w w1 w2 : world) :
  row !! "time" = Some time ->
  fix_date_short env time w = (Return fixed, w1) ->
  fix_rows env rest w1 = (Raise e, w2) ->
  fix_rows env (JDict row :: rest) w = (Raise e, w2).
Proof.
  intros Ht Hfix Hrest. cbn [fix_rows]. unfold bind, lift, py_getitem.
  rewrite Ht, Hfix. cbn [py_setitem]. by rewrite Hrest.
Qed.


Lemma get_history_rows (offset : Z) (w w' : world) (payload : gmap string json)
    (rows rows' : list json) :
  let req := mkRequest GET (urls_history env username password panel) []
               [("startIndex", offset)] None in
  session_of username password panel handle w ->
  transport env (length (requests w)) req
  = Return (aiohttp_response 200 (Return (JDict payload))) ->
  payload !! "logs" = Some (JList rows) ->
  fix_rows env rows (sent req w) = (Return rows', w') ->
  get_history env offset w = (Return (JDict (<["logs" := JList rows']> payload)), w').
Proof.
  intros req Hsession Htransport Hlogs Hrows. subst req.
  unfold get_history. start_request Hsession Htransport. accept_200.
  unfold lift, py_getitem. rewrite Hlogs. cbn [py_iter]. by rewrite Hrows.
Qed.

Lemma get_history_raises (offset : Z) (w w' : world) (payload : gmap string json)
    (rows : list json) (e : exception) :
  let req := mkRequest GET (urls_history env username password panel) []
               [("startIndex", offset)] None in
  session_of username password panel handle w ->
  transport env (length (requests w)) req
  = Return (aiohttp_response 200 (Return (JDict payload))) ->
  payload !! "logs" = Some (JList rows) ->
  fix_rows env rows (sent req w) = (Raise e, w') ->
  get_history env offset w = (Raise e, w').
Proof.
  intros req Hsession Htransport Hlogs Hrows. subst req.
  unfold get_history. start_request Hsession Htransport. accept_200.
  unfold lift, py_getitem. rewrite Hlogs. cbn [py_iter]. by rewrite Hrows.
Qed.

End Operations.

(** ** The operations on concrete payloads *)

Lemma example_world_session : session_of user secret panel_1 0 example_world.
Proof. by vm_compute. Qed.

(** C4 as the specification words it, refuted: the [time] field of what
    [get_arm_state] returns is the short date it received, although
    [fix_date_short] does convert that value. *)
Lemma get_arm_state_leaves_time :
  exists d,
    fst (get_arm_state arm_env example_world) = Return (JDict d)
    /\ d !! "time" = Some (JStr "Today 10:00")
    /\ d !! "timeex" = Some (JStr "2024-03-05T10:00:00")
    /\ fst (fix_date_short arm_env (JStr "Today 10:00") example_world)
       = Return "2024-03-05T10:00:00"
    /\ JDict d <> JDict (<["time" := JStr "2024-03-05T10:00:00"]> arm_payload).
Proof.
  exists (<["timeex" := JStr "2024-03-05T10:00:00"]> arm_payload).
  split; [by vm_compute|]. split; [by vm_compute|]. split; [by vm_compute|].
  split; [by vm_compute|].
  intros Heq.
  apply (f_equal (fun j => match j with JDict d => d !! "time" | _ => None end)) in Heq.
  by vm_compute in Heq.
Qed.

Lemma get_arm_state_timeex_witness :
  session_of user secret panel_1 0 example_world
  /\ arm_payload !! "timeex" = Some (JStr "Today 10:00")
  /\ get_arm_state arm_env example_world
     = (Return (JDict (<["timeex" := JStr "2024-03-05T10:00:00"]> arm_payload)),
        tick (tick (sent (mkRequest GET "/status" [] [] None) example_world))).
Proof.
  split; [exact example_world_session|]. split; [by vm_compute|].
  apply (get_arm_state_timeex arm_env user secret panel_1 0 example_world _
           arm_payload (JStr "Today 10:00") "2024-03-05T10:00:00").
  - exact example_world_session.
  - reflexivity.
  - by vm_compute.
  - by vm_compute.
Defined.

Lemma get_temperature_filters_witness :
  session_of user secret panel_1 0 example_world
  /\ forallb has_serial [reading "ABC123" 21; reading "XYZ999" 4] = true
  /\ fst (get_temperature temperature_env (Some "ABC123") example_world)
     = Return (JDict (<["temperatureComponentList" := JList [reading "ABC123" 21]]>
                        temperature_payload))
  /\ fst (get_temperature temperature_env None example_world)
     = Return (JDict temperature_payload).
Proof.
  split; [exact example_world_session|]. split; [by vm_compute|].
  destruct (get_temperature_filters temperature_env user secret panel_1 0 example_world
              (JDict temperature_payload) example_world_session eq_refl)
    as [Hnone Hsome].
  split.
  - rewrite (Hsome "ABC123" temperature_payload
               [reading "ABC123" 21; reading "XYZ999" 4] eq_refl);
      by vm_compute.
  - by rewrite Hnone.
Defined.

Example get_temperature_no_match :
  fst (get_temperature temperature_env (Some "NOPE") example_world)
  = Return (JDict (<["temperatureComponentList" := JList []]> temperature_payload)).
Proof. by vm_compute. Qed.

Example get_history_two_entries :
  fst (get_history (example_env march_5_2024
                      (Return (history_payload ["Today 14:30"; "12/25 08:15"])))
                   0 example_world)
  = Return (history_payload ["2024-03-05T14:30:00"; "2024-12-25T08:15:00"]).
Proof. by vm_compute. Qed.

(** C8, on a history whose second entry is not a date: the call does not
    pass the entry over, but what ends it is the [UnboundLocalError] of
    [fix_date_short], not a parse error. *)
Theorem get_history_bad_entry :
  fst (get_history (example_env march_5_2024
                      (Return (history_payload ["Today 14:30"; "not-a-date"])))
                   0 example_world)
  = Raise (UnboundLocalError "result").
Proof. by vm_compute. Qed.

(** * Further properties of fix_date_short *)

Section FixDateShortMore.

Variable env : environment.

(** The pattern starts with the month: nothing matches a string whose
    first character is not a digit. *)
Lemma not_digit_facts (c : ascii) :
  is_digit c = false ->
  Ascii.eqb "1" c = false /\ Ascii.eqb "0" c = false /\ in_range "1" "9" c = false.
Proof.
  intros Hc. repeat split.
  - destruct (Ascii.eqb_spec "1" c) as [<-|]; [discriminate Hc|done].
  - destruct (Ascii.eqb_spec "0" c) as [<-|]; [discriminate Hc|done].
  - unfold is_digit, in_range in *. cbn in *.
    apply Bool.andb_false_iff in Hc. apply Bool.andb_false_iff.
    rewrite !N.leb_gt in *. lia.
Qed.

Lemma no_match_without_digit (c : ascii) (rest : string) :
  is_digit c = false -> re_run format_regex (String c rest) = [].
Proof.
  intros Hc. destruct (not_digit_facts c Hc) as (H1 & H0 & Hr).
  unfold format_regex, re_m, RLit, RRange.
  cbn -[Ascii.eqb in_range is_digit is_space re_d re_H re_M].
  rewrite H1, H0, Hr. reflexivity.
Qed.

Lemma strptime_starts_with_digit (s : string) (parsed : datetime) :
  strptime (JStr s) = Return parsed -> starts_with_digit s = true.
Proof.
  destruct s as [|c rest]; [by vm_compute|]. cbn [starts_with_digit].
  destruct (is_digit c) eqn:Hc; [done|].
  unfold strptime, re_match. by rewrite (no_match_without_digit c rest Hc).
Qed.

Lemma digit_start_not_word (s : string) :
  starts_with_digit s = true ->
  String.eqb (str_take 5 s) "Today" = false
  /\ String.eqb (str_take 9 s) "Yesterday" = false.
Proof.
  destruct s as [|c rest]; [done|]. cbn [starts_with_digit]. intros Hc.
  unfold str_take. cbn [substring String.eqb].
  assert (Ascii.eqb c "T" = false) as ->
    by (destruct (Ascii.eqb_spec c "T") as [->|]; [discriminate Hc|done]).
  assert (Ascii.eqb c "Y" = false) as ->
    by (destruct (Ascii.eqb_spec c "Y") as [->|]; [discriminate Hc|done]).
  done.
Qed.

Lemma strptime_return_str (v : json) (parsed : datetime) :
  strptime v = Return parsed -> exists s, v = JStr s.
Proof. destruct v; try discriminate; eauto. Qed.

Lemma strptime_return_valid (v : json) (parsed : datetime) :
  strptime v = Return parsed ->
  valid_datetime parsed = true /\ year parsed = 1900
  /\ second parsed = 0 /\ microsecond parsed = 0.
Proof.
  unfold strptime, datetime_new. intros H.
  repeat case_match; simplify_eq; by unfold valid_datetime.
Qed.

Lemma replace_year_return (t replaced : datetime) (y : Z) :
  replace_year t y = Return replaced ->
  valid_datetime replaced = true /\ year replaced = y
  /\ second replaced = second t /\ microsecond replaced = microsecond t.
Proof.
  unfold replace_year, datetime_new. intros H.
  case_match; simplify_eq. by unfold valid_datetime.
Qed.

(** One pass through the body: it raises at once, or returns a timestamp
    after one reading of the clock, or makes the recursive call after one
    reading of the clock. *)
Lemma fix_date_short_body_step (recur : json -> M string) (v : json) (w : world) :
  (exists e, fix_date_short_body env recur v w = (Raise e, w))
  \/ (exists fixed,
        minute_stamp [1900; year (clock env (clock_reads w))] fixed
        /\ fix_date_short_body env recur v w = (Return fixed, tick w))
  \/ (exists rest,
        fix_date_short_body env recur v w
        = recur (JStr (strftime_md (clock env (clock_reads w)) ++ rest)) (tick w)).
Proof.
  unfold fix_date_short_body, bind, datetime_now, fall_through, ret, raise.
  destruct (strptime v) as [parsed|e] eqn:Hp.
  - destruct (strptime_return_valid _ _ Hp) as (Hv & Hy & Hs & Hu).
    right; left.
    destruct (replace_year parsed _) as [replaced|e] eqn:Hr.
    + destruct (replace_year_return _ _ _ Hr) as (Hv' & Hy' & Hs' & Hu').
      exists (isoformat replaced). split; [|done].
      exists replaced. repeat split; try congruence. rewrite Hy'.
      apply list_elem_of_further, list_elem_of_here.
    + apply replace_year_raises in Hr as [msg ->].
      destruct (strptime_return_str _ _ Hp) as [s ->].
      destruct (digit_start_not_word s (strptime_starts_with_digit s _ Hp)) as [-> ->].
      exists (isoformat parsed). split; [|done].
      exists parsed. repeat split; try done. rewrite Hy. apply list_elem_of_here.
  - destruct e; try (left; eauto; fail).
    destruct v as [| | | |s| |]; try (left; eauto; fail).
    destruct (String.eqb (str_take 5 s) "Today"); [right; right; eauto|].
    destruct (String.eqb (str_take 9 s) "Yesterday"); [right; right; eauto|].
    left; eauto.
Qed.

(** The whole call: at most two readings of the clock and nothing else,
    and a returned value is a timestamp in a year the clock showed (1900
    only stays when the clock's year is no year of the calendar). *)
Lemma fix_date_short_outcome (v : json) (w : world) :
  exists k : nat,
    (k <= 2)%nat
    /\ snd (fix_date_short env v w) = Nat.iter k tick w
    /\ forall fixed,
         fst (fix_date_short env v w) = Return fixed ->
         minute_stamp [1900; year (clock env (clock_reads w));
                       year (clock env (S (clock_reads w)))] fixed.
Proof.
  unfold fix_date_short.
  change (fix_date_short_fuel env 2 v w)
    with (fix_date_short_body env (fix_date_short_fuel env 1) v w).
  destruct (fix_date_short_body_step (fix_date_short_fuel env 1) v w)
    as [[e ->] | [(fixed & Hstamp & ->) | [rest ->]]].
  - exists 0%nat. repeat split; [lia|]. intros fixed [=].
  - exists 1%nat. repeat split; [lia|]. intros ? [= <-].
    destruct Hstamp as (t & ? & ? & ? & ? & Hy). exists t. repeat split; try done.
    apply elem_of_cons in Hy as [-> | ->%list_elem_of_singleton];
      eauto using list_elem_of_here, list_elem_of_further.
  - change (fix_date_short_fuel env 1 ?x ?y)
      with (fix_date_short_body env (fix_date_short_fuel env 0) x y).
    destruct (fix_date_short_body_step (fix_date_short_fuel env 0)
                (JStr (strftime_md (clock env (clock_reads w)) ++ rest)) (tick w))
      as [[e ->] | [(fixed & Hstamp & ->) | [rest' ->]]].
    + exists 1%nat. repeat split; [lia|]. intros fixed [=].
    + exists 2%nat. repeat split; [lia|]. intros ? [= <-].
      destruct Hstamp as (t & ? & ? & ? & ? & Hy). exists t. repeat split; try done.
      cbn [clock_reads tick] in Hy.
      apply elem_of_cons in Hy as [-> | ->%list_elem_of_singleton];
        eauto using list_elem_of_here, list_elem_of_further.
    + exists 2%nat. repeat split; [lia|]. intros fixed [=].
Qed.

End FixDateShortMore.

Section FixDateShortFacts.

Variable env : environment.


Lemma isoformat_digits (t : datetime) :
  exists a b c rest,
    0 <= a < 10 /\ 0 <= b < 10 /\ 0 <= c < 10
    /\ isoformat t
       = String (digit_char a) (String (digit_char b) (String (digit_char c) rest)).
Proof.
  exists (year t / 10 / 10 / 10 mod 10), (year t / 10 / 10 mod 10), (year t / 10 mod 10).
  eexists. repeat split; try (by apply Z.mod_pos_bound).
Qed.

Lemma no_match_three_digits (a b c : Z) (rest : string) :
  0 <= a < 10 -> 0 <= b < 10 -> 0 <= c < 10 ->
  re_run format_regex
    (String (digit_char a) (String (digit_char b) (String (digit_char c) rest))) = [].
Proof.
  intros Ha Hb Hc. enumerate a 0 10; enumerate b 0 10; enumerate c 0 10;
    vm_compute; reflexivity.
Qed.

(** A timestamp in ISO form is no short date. *)
Lemma fix_date_short_isoformat (t : datetime) (w : world) :
  fix_date_short env (JStr (isoformat t)) w = (Raise (UnboundLocalError "result"), w).
Proof.
  destruct (isoformat_digits t) as (a & b & c & rest & Ha & Hb & Hc & ->).
  set (s := String (digit_char a) (String (digit_char b) (String (digit_char c) rest))).
  assert (Hd : starts_with_digit s = true) by apply (digit_char_is_digit a Ha).
  destruct (digit_start_not_word s Hd) as [HT HY].
  apply (fix_date_short_unrecognised env 1 s "time data does not match format" w);
    [|done..].
  unfold strptime, re_match, s. by rewrite no_match_three_digits.
Qed.

End FixDateShortFacts.

Lemma str_take_app (word rest : string) :
  str_take (String.length word) (word ++ rest) = word.
Proof.
  unfold str_take. induction word as [|c word IH].
  - by destruct rest.
  - change (String c word ++ rest)%string with (String c (word ++ rest)).
    cbn [String.length substring]. by rewrite IH.
Qed.

Lemma strptime_without_digit (s : string) :
  starts_with_digit s = false ->
  strptime (JStr s) = Raise (ValueError "time data does not match format").
Proof.
  intros Hd. destruct s as [|c rest]; [reflexivity|].
  unfold strptime, re_match. by rewrite no_match_without_digit.
Qed.

(** X1: the recursion of [fix_date_short] is at most one call deep: for
    every input and clock, any amount of fuel above two gives what two
    units give, and the call never runs out of it. *)
Theorem fix_date_short_recursion_depth (env : environment) (n : nat) (v : json) (w : world) :
  fix_date_short_fuel env (S (S n)) v w = fix_date_short env v w
  /\ fst (fix_date_short env v w) <> Raise RecursionError.
Proof. split; [apply fix_date_short_fuel_enough | apply fix_date_short_total]. Qed.

(** X2: [fix_date_short] reads the clock at most twice and has no other
    effect: it issues no request, opens no client and leaves the Session's
    attributes alone, whether it returns or raises. *)
Theorem fix_date_short_reads_clock_only (env : environment) (v : json) (w : world) :
  let w' := snd (fix_date_short env v w) in
  (clock_reads w <= clock_reads w' <= clock_reads w + 2)%nat
  /\ requests w' = requests w /\ clients w' = clients w
  /\ self_attrs w' = self_attrs w.
Proof.
  destruct (fix_date_short_outcome env v w) as (k & Hk & Hw & _).
  cbv zeta. rewrite Hw.
  destruct k as [|[|[|k]]]; cbn; repeat split; lia.
Qed.

(** X3: a value that is not a string (a number, null, a list, an object)
    is refused by [strptime] with a [TypeError], which the handler for
    [ValueError] does not catch; the clock is not read. *)
Theorem fix_date_short_not_str (env : environment) (v : json) (w : world) :
  (forall s, v <> JStr s) ->
  fix_date_short env v w = (Raise (TypeError "strptime() argument 1 must be str"), w).
Proof. intros Hv. destruct v; try reflexivity. by destruct (Hv s). Qed.

Lemma fix_date_short_not_str_witness :
  (forall s, JNull <> JStr s)
  /\ fix_date_short arm_env JNull example_world
     = (Raise (TypeError "strptime() argument 1 must be str"), example_world).
Proof.
  split; [discriminate|].
  apply (fix_date_short_not_str arm_env JNull example_world). discriminate.
Defined.

Lemma iso_minutes_length (y m d H Mi : Z) :
  String.length (iso_minutes y m d H Mi) = 19%nat.
Proof. reflexivity. Qed.

(** The year [replace] attaches, or leaves: with a date that parsed, the
    call of [replace] and the fall through the handler together give the
    timestamp in [stamp_year] of the clock's reading. *)
Lemma replace_year_stamp (s : string) (parsed now : datetime) :
  strptime (JStr s) = Return parsed ->
  match replace_year parsed (year now) with
  | Return replaced => isoformat replaced
  | Raise _ => isoformat parsed
  end
  = iso_minutes (stamp_year now) (month parsed) (day parsed) (hour parsed) (minute parsed).
Proof.
  intros Hp. destruct (strptime_return_valid _ _ Hp) as (_ & Hy & Hs & Hu).
  unfold stamp_year.
  destruct ((1 <=? year now) && (year now <=? 9999))%bool eqn:Hrange.
  - apply Bool.andb_true_iff in Hrange as [Hlo Hhi].
    apply Z.leb_le in Hlo. apply Z.leb_le in Hhi.
    by rewrite (replace_year_parsed (JStr s) parsed (year now) Hp (conj Hlo Hhi)).
  - unfold replace_year, datetime_new, valid_date. rewrite Hrange. cbn [andb].
    unfold isoformat, iso_minutes. by rewrite Hy, Hs, Hu.
Qed.

(** One pass through the body, exactly: it raises at once; or the input
    parsed and the timestamp is built after one reading of the clock; or
    the input starts with one of the two words, did not parse, and the
    recursive call is made on the clock's month and day followed by the
    rest of the input. *)
Lemma fix_date_short_body_cases (env : environment) (recur : json -> M string)
    (v : json) (w : world) :
  (exists e, fix_date_short_body env recur v w = (Raise e, w))
  \/ (exists s parsed,
        v = JStr s /\ strptime v = Return parsed
        /\ fix_date_short_body env recur v w
           = (Return (iso_minutes (stamp_year (clock env (clock_reads w)))
                        (month parsed) (day parsed) (hour parsed) (minute parsed)),
              tick w))
  \/ (exists s rest msg,
        v = JStr s /\ strptime v = Raise (ValueError msg)
        /\ (str_take 5 s = "Today" /\ rest = str_drop 5 s
            \/ str_take 9 s = "Yesterday" /\ rest = str_drop 9 s)
        /\ fix_date_short_body env recur v w
           = recur (JStr (strftime_md (clock env (clock_reads w)) ++ rest)) (tick w)).
Proof.
  unfold fix_date_short_body, bind, datetime_now, fall_through, ret, raise.
  destruct (strptime v) as [parsed|e] eqn:Hp.
  - right; left. destruct (strptime_return_str _ _ Hp) as [s ->].
    exists s, parsed. split; [done|]. split; [done|].
    rewrite <- (replace_year_stamp s parsed (clock env (clock_reads w)) Hp).
    destruct (digit_start_not_word s (strptime_starts_with_digit s _ Hp)) as [-> ->].
    destruct (replace_year parsed _) as [replaced|e] eqn:Hr; [done|].
    by apply replace_year_raises in Hr as [msg ->].
  - destruct e as [msg| | | | | | |]; try (left; eauto; fail).
    destruct v as [| | | |s| |]; try (left; eauto; fail).
    destruct (String.eqb (str_take 5 s) "Today") eqn:HT.
    { right; right. apply String.eqb_eq in HT. exists s, (str_drop 5 s), msg. eauto 6. }
    destruct (String.eqb (str_take 9 s) "Yesterday") eqn:HY.
    { right; right. apply String.eqb_eq in HY. exists s, (str_drop 9 s), msg. eauto 6. }
    left; eauto.
Qed.

(** X4: whatever [fix_date_short] returns is a timestamp of 19 characters,
    YYYY-MM-DDTHH:MM:00, without fraction of a second and without time
    zone, and it is determined as follows.  Either the input itself parsed
    as a short date, the clock was read once, and the year is the year of
    that reading; or the input starts with "Today" or "Yesterday", did not
    parse, what parsed is the first reading's month and day followed by the
    rest of the input, the clock was read twice, and the year is the year
    of the second reading.  Month, day, hour and minute are those of the
    text that parsed, a day that exists in 1900 (so in every year).  The
    parser's 1900 stays only when the reading shows no year between 1 and
    9999 ([stamp_year]). *)
Theorem fix_date_short_returns_minute_stamp (env : environment) (v : json)
    (fixed : string) (w w' : world) :
  fix_date_short env v w = (Return fixed, w') ->
  String.length fixed = 19%nat
  /\ exists s m d H Mi,
       v = JStr s
       /\ valid_date 1900 m d = true /\ valid_time H Mi 0 0 = true
       /\ ((strptime v = Return (mkDatetime 1900 m d H Mi 0 0)
            /\ fixed = iso_minutes (stamp_year (clock env (clock_reads w))) m d H Mi
            /\ valid_date (stamp_year (clock env (clock_reads w))) m d = true
            /\ w' = tick w)
           \/ (exists rest msg,
                 strptime v = Raise (ValueError msg)
                 /\ (str_take 5 s = "Today" /\ rest = str_drop 5 s
                     \/ str_take 9 s = "Yesterday" /\ rest = str_drop 9 s)
                 /\ strptime (JStr (strftime_md (clock env (clock_reads w)) ++ rest))
                    = Return (mkDatetime 1900 m d H Mi 0 0)
                 /\ fixed
                    = iso_minutes (stamp_year (clock env (S (clock_reads w)))) m d H Mi
                 /\ valid_date (stamp_year (clock env (S (clock_reads w)))) m d = true
                 /\ w' = tick (tick w))).
Proof.
  assert (Hparsed : forall u parsed now,
            strptime u = Return parsed ->
            parsed = mkDatetime 1900 (month parsed) (day parsed) (hour parsed)
                       (minute parsed) 0 0
            /\ valid_date 1900 (month parsed) (day parsed) = true
            /\ valid_time (hour parsed) (minute parsed) 0 0 = true
            /\ valid_date (stamp_year now) (month parsed) (day parsed) = true).
  { intros u parsed now Hp.
    destruct (strptime_return_valid _ _ Hp) as (Hv & Hy & Hs & Hu).
    unfold valid_datetime in Hv. rewrite Hy, Hs, Hu in Hv.
    apply Bool.andb_true_iff in Hv as [Hd Ht].
    split; [destruct parsed; cbn in *; congruence|]. split; [done|]. split; [done|].
    unfold stamp_year.
    destruct ((1 <=? year now) && (year now <=? 9999))%bool eqn:Hrange; [|done].
    pose proof (days_in_month_1900 (year now) (month parsed)).
    apply Bool.andb_true_iff in Hrange as [Hlo Hhi].
    unfold_valid Hd. unfold valid_date.
    rewrite Hlo, Hhi, !Bool.andb_true_iff, !Z.leb_le. lia. }
  unfold fix_date_short.
  change (fix_date_short_fuel env 2 v w)
    with (fix_date_short_body env (fix_date_short_fuel env 1) v w).
  destruct (fix_date_short_body_cases env (fix_date_short_fuel env 1) v w)
    as [[e ->] | [(s & parsed & -> & Hp & ->) | (s & rest & msg & -> & Hp & Hword & ->)]].
  - intros [=].
  - intros [= <- <-]. split; [apply iso_minutes_length|].
    destruct (Hparsed _ _ (clock env (clock_reads w)) Hp) as (Hshape & Hd & Ht & Hd').
    exists s, (month parsed), (day parsed), (hour parsed), (minute parsed).
    split; [done|]. split; [done|]. split; [done|]. left.
    rewrite <- Hshape. done.
  - change (fix_date_short_fuel env 1 ?x ?y)
      with (fix_date_short_body env (fix_date_short_fuel env 0) x y).
    destruct (fix_date_short_body_cases env (fix_date_short_fuel env 0)
                (JStr (strftime_md (clock env (clock_reads w)) ++ rest)) (tick w))
      as [[e ->] | [(s' & parsed & _ & Hp' & ->) | (s' & rest' & msg' & _ & _ & _ & ->)]].
    + intros [=].
    + intros [= <- <-]. split; [apply iso_minutes_length|].
      destruct (Hparsed _ _ (clock env (S (clock_reads w))) Hp')
        as (Hshape & Hd & Ht & Hd').
      exists s, (month parsed), (day parsed), (hour parsed), (minute parsed).
      split; [done|]. split; [done|]. split; [done|]. right.
      exists rest, msg. rewrite <- Hshape. done.
    + intros [=].
Qed.

Lemma fix_date_short_returns_minute_stamp_witness :
  fix_date_short (with_clock new_year_clock arm_env) (JStr "Today 10:00") example_world
  = (Return "2024-12-31T10:00:00", tick (tick example_world))
  /\ String.length "2024-12-31T10:00:00" = 19%nat
  /\ exists s m d H Mi,
       JStr "Today 10:00" = JStr s
       /\ valid_date 1900 m d = true /\ valid_time H Mi 0 0 = true
       /\ ((strptime (JStr "Today 10:00") = Return (mkDatetime 1900 m d H Mi 0 0)
            /\ "2024-12-31T10:00:00"
               = iso_minutes
                   (stamp_year (clock (with_clock new_year_clock arm_env)
                                  (clock_reads example_world))) m d H Mi
            /\ valid_date (stamp_year (clock (with_clock new_year_clock arm_env)
                                         (clock_reads example_world))) m d = true
            /\ tick (tick example_world) = tick example_world)
           \/ (exists rest msg,
                 strptime (JStr "Today 10:00") = Raise (ValueError msg)
                 /\ (str_take 5 s = "Today" /\ rest = str_drop 5 s
                     \/ str_take 9 s = "Yesterday" /\ rest = str_drop 9 s)
                 /\ strptime (JStr (strftime_md (clock (with_clock new_year_clock arm_env)
                                                   (clock_reads example_world)) ++ rest))
                    = Return (mkDatetime 1900 m d H Mi 0 0)
                 /\ "2024-12-31T10:00:00"
                    = iso_minutes
                        (stamp_year (clock (with_clock new_year_clock arm_env)
                                       (S (clock_reads example_world)))) m d H Mi
                 /\ valid_date (stamp_year (clock (with_clock new_year_clock arm_env)
                                              (S (clock_reads example_world)))) m d = true
                 /\ tick (tick example_world) = tick (tick example_world))).
Proof.
  assert (H : fix_date_short (with_clock new_year_clock arm_env) (JStr "Today 10:00")
                example_world
              = (Return "2024-12-31T10:00:00", tick (tick example_world)))
    by (vm_compute; reflexivity).
  split; [exact H|].
  exact (fix_date_short_returns_minute_stamp (with_clock new_year_clock arm_env) _ _ _ _ H).
Defined.

(** X5: "Yesterday" is treated exactly as "Today": for every rest of the
    string and every clock the two calls give the same result (the same
    timestamp of the clock's own day, or the same error) and leave the same
    world. *)
Theorem fix_date_short_yesterday_as_today (env : environment) (rest : string) (w : world) :
  fix_date_short env (JStr ("Yesterday" ++ rest)) w
  = fix_date_short env (JStr ("Today" ++ rest)) w.
Proof.
  unfold fix_date_short.
  rewrite (fix_date_short_yesterday env 1 _ "time data does not match format");
    [|by apply strptime_without_digit|apply (str_take_app "Yesterday")].
  rewrite (fix_date_short_today env 1 _ "time data does not match format");
    [|by apply strptime_without_digit|apply (str_take_app "Today")].
  reflexivity.
Qed.

(** X6: a zero-padded "MM/DD HH:MM" whose month and day exist in a common
    year is converted with one reading of the clock: the result is the
    clock's year followed by the input's month, day, hour and minute and
    ":00", also when that date is later than the clock's. *)
Theorem fix_date_short_padded_date (env : environment) (m d H Mi : Z) (w : world) :
  valid_date 1900 m d = true -> valid_time H Mi 0 0 = true ->
  1 <= year (clock env (clock_reads w)) <= 9999 ->
  fix_date_short env (JStr (short_date m d H Mi)) w
  = (Return (iso_minutes (year (clock env (clock_reads w))) m d H Mi), tick w).
Proof. intros Hd Ht Hy. by rewrite fix_date_short_month_day. Qed.

Lemma fix_date_short_padded_date_witness :
  valid_date 1900 12 25 = true /\ valid_time 8 15 0 0 = true
  /\ fix_date_short arm_env (JStr "12/25 08:15") example_world
     = (Return "2024-12-25T08:15:00", tick example_world).
Proof.
  split; [reflexivity|]. split; [reflexivity|].
  apply (fix_date_short_padded_date arm_env 12 25 8 15 example_world);
    [reflexivity | reflexivity | by vm_compute].
Defined.

(** X7: "Today HH:MM" and "Yesterday HH:MM", when the clock's day exists
    in a common year, take two readings of the clock: month and day come
    from the first, the year from the second (so a call across New Year's
    midnight dates 31 December in the new year). *)
Theorem fix_date_short_relative_date (env : environment) (word : string) (H Mi : Z)
    (w : world) :
  word = "Today" \/ word = "Yesterday" ->
  valid_date 1900 (month (clock env (clock_reads w)))
    (day (clock env (clock_reads w))) = true ->
  valid_time H Mi 0 0 = true ->
  1 <= year (clock env (S (clock_reads w))) <= 9999 ->
  fix_date_short env (JStr (relative_date word H Mi)) w
  = (Return (iso_minutes (year (clock env (S (clock_reads w))))
               (month (clock env (clock_reads w)))
               (day (clock env (clock_reads w))) H Mi),
     tick (tick w)).
Proof. intros Hw Hd Ht Hy. by rewrite fix_date_short_relative. Qed.

Lemma fix_date_short_relative_date_witness :
  fix_date_short (with_clock new_year_clock arm_env) (JStr "Yesterday 09:00") empty_world
  = (Return "2024-12-31T09:00:00", tick (tick empty_world)).
Proof.
  assert (H : fix_date_short (with_clock new_year_clock arm_env)
                (JStr (relative_date "Yesterday" 9 0)) empty_world
              = (Return (iso_minutes
                           (year (clock (with_clock new_year_clock arm_env)
                                    (S (clock_reads empty_world))))
                           (month (clock (with_clock new_year_clock arm_env)
                                     (clock_reads empty_world)))
                           (day (clock (with_clock new_year_clock arm_env)
                                   (clock_reads empty_world))) 9 0),
                 tick (tick empty_world))).
  { apply fix_date_short_relative_date;
      [by right | by vm_compute | by vm_compute | by vm_compute]. }
  vm_compute in H. vm_compute. exact H.
Defined.

(** X8: 29 February as input is never converted, in any year and at any
    hour: [strptime] builds the date in 1900, raises, and the call ends in
    the unbound [result] without reading the clock. *)
Theorem fix_date_short_february_29 (env : environment) (H Mi : Z) (w : world) :
  valid_time H Mi 0 0 = true ->
  fix_date_short env (JStr (short_date 2 29 H Mi)) w
  = (Raise (UnboundLocalError "result"), w).
Proof. apply fix_date_short_leap_day. Qed.

Lemma fix_date_short_february_29_witness :
  valid_time 10 0 0 0 = true
  /\ fix_date_short (with_clock (fun _ => leap_day_2024) arm_env)
       (JStr "02/29 10:00") example_world
     = (Raise (UnboundLocalError "result"), example_world).
Proof.
  split; [reflexivity|].
  by apply (fix_date_short_february_29 _ 10 0 example_world).
Defined.

(** X9: a string that starts with neither a digit nor "Today" nor
    "Yesterday" (the empty string among them) ends the call in
    [UnboundLocalError] for the local [result]; the clock is not read. *)
Theorem fix_date_short_rejects_other_text (env : environment) (s : string) (w : world) :
  starts_with_digit s = false ->
  String.eqb (str_take 5 s) "Today" = false ->
  String.eqb (str_take 9 s) "Yesterday" = false ->
  fix_date_short env (JStr s) w = (Raise (UnboundLocalError "result"), w).
Proof.
  intros Hd HT HY.
  apply (fix_date_short_unrecognised env 1 s "time data does not match format" w);
    [|done..].
  by apply strptime_without_digit.
Qed.

Lemma fix_date_short_rejects_other_text_witness :
  starts_with_digit "yesterday 09:00" = false
  /\ fix_date_short arm_env (JStr "yesterday 09:00") example_world
     = (Raise (UnboundLocalError "result"), example_world).
Proof.
  split; [reflexivity|].
  by apply (fix_date_short_rejects_other_text arm_env "yesterday 09:00" example_world).
Defined.

(** X10: [fix_date_short] does not accept what it produced: applied to a
    timestamp it returned, it raises, so a field can be normalised once
    only. *)
Theorem fix_date_short_rejects_own_output (env : environment) (v : json)
    (fixed : string) (w w' w2 : world) :
  fix_date_short env v w = (Return fixed, w') ->
  fix_date_short env (JStr fixed) w2 = (Raise (UnboundLocalError "result"), w2).
Proof.
  intros Hrun. destruct (fix_date_short_outcome env v w) as (k & _ & _ & Hret).
  destruct (Hret fixed) as (t & _ & _ & _ & -> & _); [by rewrite Hrun|].
  apply fix_date_short_isoformat.
Qed.

Lemma fix_date_short_rejects_own_output_witness :
  fix_date_short arm_env (JStr "Today 10:00") example_world
  = (Return "2024-03-05T10:00:00", tick (tick example_world))
  /\ fix_date_short arm_env (JStr "2024-03-05T10:00:00") example_world
     = (Raise (UnboundLocalError "result"), example_world).
Proof.
  assert (H : fix_date_short arm_env (JStr "Today 10:00") example_world
              = (Return "2024-03-05T10:00:00", tick (tick example_world)))
    by (vm_compute; reflexivity).
  split; [exact H|].
  exact (fix_date_short_rejects_own_output arm_env _ _ _ _ example_world H).
Defined.

(** * Further properties of _validate_response *)

(** X11: on a response of the transport the validator has two outcomes
    only: with status 200 the outcome of decoding the body, with any other
    status the [AttributeError] for [status_code]. *)
Theorem validate_response_transport_outcomes (env : environment) (status : Z)
    (body : result json) (w : world) :
  _validate_response env (aiohttp_response status body) w
  = (if status =? 200 then body else Raise (AttributeError "status_code"), w).
Proof.
  destruct (Z.eqb_spec status 200) as [-> | Hne].
  - by rewrite (validate_response_200 env (aiohttp_response 200 body) "json" w).
  - by apply validate_response_aiohttp.
Qed.

(** X12: on a response object that has [status_code] and [text], a status
    other than 200 builds the [ResponseError]: it holds the status code and
    the JSON-decoded text; a text that is no JSON ends the call in the
    decoder's error instead, and a [text] that is not a string in a
    [TypeError]. *)
Theorem validate_response_error_outcomes (env : environment) (r : response)
    (status : Z) (code text : pyval) (w : world) :
  resp_attrs r !! "status" = Some (VInt status) -> status <> 200 ->
  resp_attrs r !! "status_code" = Some code ->
  resp_attrs r !! "text" = Some text ->
  _validate_response env r w
  = (match text with
     | VStr body =>
         match json_loads env body with
         | Return parsed => Raise (ResponseError code parsed)
         | Raise e => Raise e
         end
     | _ => Raise (TypeError "the JSON object must be str, bytes or bytearray")
     end, w).
Proof.
  intros Hs Hne Hc Ht.
  destruct text; try (by apply (validate_response_error_branch env r status)).
  all: unfold _validate_response, response_getattr, bind;
    rewrite Hs; cbn -[Z.eqb]; apply Z.eqb_neq in Hne; by rewrite Hne, Hc, Ht.
Qed.

Lemma validate_response_error_outcomes_witness :
  resp_attrs (text_response 403 "{}") !! "status" = Some (VInt 403)
  /\ 403 <> 200
  /\ _validate_response (with_json_loads (fun _ => Return msg_bad) arm_env)
       (text_response 403 "{}") example_world
     = (Raise (ResponseError (VInt 403) msg_bad), example_world).
Proof.
  split; [by vm_compute|]. split; [done|].
  apply (validate_response_error_outcomes (with_json_loads (fun _ => Return msg_bad) arm_env)
           (text_response 403 "{}") 403 (VInt 403) (VStr "{}") example_world);
    by vm_compute.
Defined.

(** * Further properties of the Session's operations *)

(** ** What a computation leaves alone *)

Create HintDb keeps.

Section Keeps.

Context {X : Type} (proj : world -> X).
Variable env : environment.
Hypothesis Htick : forall w, proj (tick w) = proj w.
Hypothesis Hsent : forall req w, proj (sent req w) = proj w.

Lemma keeps_ret {A} (a : A) : keeps proj (ret a).
Proof. by intros w. Qed.

Lemma keeps_raise {A} (e : exception) : keeps proj (@raise A e).
Proof. by intros w. Qed.

Lemma keeps_lift {A} (r : result A) : keeps proj (lift r).
Proof. by intros w. Qed.

Lemma keeps_bind {A B} (m : M A) (k : A -> M B) :
  keeps proj m -> (forall a, keeps proj (k a)) -> keeps proj (bind m k).
Proof.
  intros Hm Hk w. unfold bind. specialize (Hm w).
  destruct (m w) as [[a|e] w']; cbn in *; [|done].
  by rewrite Hk.
Qed.

Lemma keeps_getattr_self (name : string) : keeps proj (getattr_self name).
Proof. intros w. unfold getattr_self. by destruct (self_attrs w !! name). Qed.

Lemma keeps_client_method (session : pyval) (name : string) :
  keeps proj (client_method session name).
Proof. destruct session; apply keeps_ret || apply keeps_raise. Qed.

Lemma keeps_response_getattr (r : response) (name : string) :
  keeps proj (response_getattr r name).
Proof.
  unfold response_getattr. destruct (resp_attrs r !! name);
    apply keeps_ret || apply keeps_raise.
Qed.

Lemma keeps_datetime_now : keeps proj (datetime_now env).
Proof. intros w. apply Htick. Qed.

Lemma keeps_send (h : nat) (req : request) : keeps proj (send env h req).
Proof. intros w. apply Hsent. Qed.

Hint Resolve keeps_ret keeps_raise keeps_lift keeps_getattr_self keeps_client_method
  keeps_response_getattr : keeps.

Ltac keeps_step :=
  first
    [ progress cbv zeta
    | solve [auto with keeps]
    | apply keeps_bind; [|intros ?]
    | match goal with
      | |- keeps _ (match ?x with _ => _ end) => destruct x
      | |- keeps _ (if ?b then _ else _) => destruct b
      end ].

Lemma keeps_validate_response (r : response) : keeps proj (_validate_response env r).
Proof.
  unfold _validate_response, response_json, ResponseError_init. repeat keeps_step.
Qed.

Lemma keeps_vid_cookie : keeps proj (vid_cookie env).
Proof. unfold vid_cookie. repeat keeps_step. Qed.

Hint Resolve keeps_validate_response keeps_vid_cookie : keeps.

Lemma keeps_fix_date_short_fuel (fuel : nat) (v : json) :
  keeps proj (fix_date_short_fuel env fuel v).
Proof.
  pose proof keeps_datetime_now as Hnow.
  revert v. induction fuel as [|fuel IH]; intros v; cbn [fix_date_short_fuel].
  - apply keeps_raise.
  - unfold fix_date_short_body, fall_through. repeat keeps_step.
Qed.

Lemma keeps_fix_date_short (v : json) : keeps proj (fix_date_short env v).
Proof. apply keeps_fix_date_short_fuel. Qed.

Lemma keeps_fix_rows (rows : list json) : keeps proj (fix_rows env rows).
Proof.
  pose proof keeps_fix_date_short as Hfix.
  induction rows as [|row rows IH]; cbn [fix_rows]; repeat keeps_step.
Qed.

(** Handling the response: needs the clock, not the wire. *)
Lemma keeps_response_handler (op : operation) (r : response) :
  keeps proj (response_handler env op r).
Proof.
  pose proof keeps_fix_date_short as Hfix. pose proof keeps_fix_rows as Hrows.
  destruct op; cbn [response_handler]; repeat keeps_step.
Qed.

(** An operation without dates: needs the wire, not the clock. *)
Lemma keeps_dateless_operation (op : operation) :
  normalises_dates op = false -> keeps proj (run_operation env op).
Proof.
  pose proof keeps_send as Hsend.
  destruct op; try discriminate; intros _; cbn [run_operation];
    unfold get_temperature, get_ethernet_status, get_lock_devices,
      get_lock_status, set_arm_state, lock_doorlock, unlock_doorlock,
      get_lock_config, logout;
    repeat keeps_step.
Qed.

Lemma keeps_run_operation (op : operation) : keeps proj (run_operation env op).
Proof.
  pose proof keeps_send as Hsend. pose proof keeps_fix_date_short as Hfix.
  pose proof keeps_fix_rows as Hrows.
  destruct op; cbn [run_operation];
    unfold get_arm_state, get_temperature, get_ethernet_status, get_lock_devices,
      get_lock_status, set_arm_state, get_history, lock_doorlock, unlock_doorlock,
      get_lock_config, logout;
    repeat keeps_step.
Qed.

Lemma keeps_run_operations (ops : list operation) (w : world) :
  proj (snd (run_operations env ops w)) = proj w.
Proof.
  revert w. induction ops as [|op ops IH]; intros w; cbn [run_operations]; [done|].
  pose proof (keeps_run_operation op w) as Hop.
  destruct (run_operation env op w) as [r w']. cbn in Hop.
  specialize (IH w'). destruct (run_operations env ops w') as [rs w''].
  cbn in *. congruence.
Qed.

End Keeps.

Section OperationFacts.

Variable env : environment.
Variables (username password panel : pyval) (handle : nat).

(** An operation that authenticates with the credentials reads four
    attributes, sends its request and hands the response to its handler;
    an error of the transport leaves the operation as it is. *)
Lemma run_operation_credential (op : operation) (req : request) (w : world) :
  session_of username password panel handle w ->
  credential_request env username password panel op = Some req ->
  run_operation env op w
  = match transport env (length (requests w)) req with
    | Return r => response_handler env op r (sent req w)
    | Raise e => (Raise e, sent req w)
    end.
Proof.
  intros (Hs & Hu & Hp & Hn) Hreq.
  destruct op; cbn [credential_request] in Hreq; simplify_eq; cbn [run_operation];
    unfold get_arm_state, get_temperature, get_ethernet_status, get_lock_devices,
      get_lock_status, get_history, lock_doorlock, unlock_doorlock;
    unfold bind; rewrite (getattr_self_found _ _ _ Hs); cbn [client_method ret];
    rewrite (getattr_self_found _ _ _ Hu), (getattr_self_found _ _ _ Hp),
      (getattr_self_found _ _ _ Hn);
    unfold send; by destruct (transport env _ _).
Qed.

End OperationFacts.

Section CredentialOperations.

Variable env : environment.
Variables (username password panel : pyval) (handle : nat).

(** X13: on a Session made by [__init__], each of the eight operations
    that authenticate with the credentials puts exactly one request on the
    wire, whatever the server answers and whether the call returns or
    raises: a GET to the URL built from username, password and panel (and
    the lock's serial number and code), without headers or body, with the
    query parameter [startIndex] for the history only. *)
Theorem operation_sends_one_request (op : operation) (req : request) (w : world) :
  session_of username password panel handle w ->
  credential_request env username password panel op = Some req ->
  requests (snd (run_operation env op w)) = (requests w ++ [req])%list.
Proof.
  intros Hs Hreq. rewrite (run_operation_credential env _ _ _ _ op req w Hs Hreq).
  destruct (transport env _ req) as [r|e]; [|done].
  by rewrite (keeps_response_handler requests env (fun _ => eq_refl) op r (sent req w)).
Qed.

(** X14: [get_ethernet_status], [get_lock_devices], [get_lock_status],
    [lock_doorlock] and [unlock_doorlock] return what the validator makes
    of the server's response, unchanged: the decoded payload on 200, the
    validator's error otherwise. *)
Theorem passthrough_returns_validated (op : operation) (req : request) (r : response)
    (w : world) :
  is_passthrough op = true ->
  session_of username password panel handle w ->
  credential_request env username password panel op = Some req ->
  transport env (length (requests w)) req = Return r ->
  run_operation env op w = _validate_response env r (sent req w).
Proof.
  intros Hop Hs Hreq Ht.
  rewrite (run_operation_credential env _ _ _ _ op req w Hs Hreq), Ht.
  by destruct op.
Qed.

(** X15: an error of the transport ends the operation with that very
    error: it is not caught, not wrapped (the module's [RequestError] is
    never raised) and the request is not sent again. *)
Theorem transport_error_propagates (op : operation) (req : request) (e : exception)
    (w : world) :
  session_of username password panel handle w ->
  credential_request env username password panel op = Some req ->
  transport env (length (requests w)) req = Raise e ->
  run_operation env op w = (Raise e, sent req w).
Proof.
  intros Hs Hreq Ht.
  by rewrite (run_operation_credential env _ _ _ _ op req w Hs Hreq), Ht.
Qed.

Ltac handle_200 op req Hs Htransport :=
  rewrite (run_operation_credential env _ _ _ _ op req _ Hs eq_refl), Htransport;
  cbn [response_handler]; unfold bind;
  match goal with
  | |- context [_validate_response env (aiohttp_response 200 ?b) ?w] =>
      rewrite (validate_response_200 env (aiohttp_response 200 b) "json" w eq_refl eq_refl);
      cbn [resp_json aiohttp_response]
  end.

(** X16: a 200 status payload without the key [timeex] ends
    [get_arm_state] in [KeyError]; the request was sent, the clock was not
    read. *)
Theorem get_arm_state_missing_timeex (w : world) (payload : gmap string json) :
  let req := mkRequest GET (urls_status env username password panel) [] [] None in
  session_of username password panel handle w ->
  transport env (length (requests w)) req
  = Return (aiohttp_response 200 (Return (JDict payload))) ->
  payload !! "timeex" = None ->
  get_arm_state env w = (Raise (KeyError "timeex"), sent req w).
Proof.
  intros req Hs Htransport Hfield. subst req.
  change (get_arm_state env w) with (run_operation env GetArmState w).
  handle_200 GetArmState (mkRequest GET (urls_status env username password panel) [] [] None)
    Hs Htransport.
  unfold lift, py_getitem. by rewrite Hfield.
Qed.

(** X17: when [fix_date_short] raises on the [timeex] of the payload,
    [get_arm_state] raises the same error and returns no payload. *)
Theorem get_arm_state_propagates (w w' : world) (payload : gmap string json)
    (timeex : json) (e : exception) :
  let req := mkRequest GET (urls_status env username password panel) [] [] None in
  session_of username password panel handle w ->
  transport env (length (requests w)) req
  = Return (aiohttp_response 200 (Return (JDict payload))) ->
  payload !! "timeex" = Some timeex ->
  fix_date_short env timeex (sent req w) = (Raise e, w') ->
  get_arm_state env w = (Raise e, w').
Proof.
  intros req Hs Htransport Hfield Hfix. subst req.
  change (get_arm_state env w) with (run_operation env GetArmState w).
  handle_200 GetArmState (mkRequest GET (urls_status env username password panel) [] [] None)
    Hs Htransport.
  unfold lift, py_getitem. by rewrite Hfield, Hfix.
Qed.

(** X18: with a device label, a 200 payload without the key
    [temperatureComponentList] ends [get_temperature] in [KeyError]
    (without a label the same payload is returned as it is). *)
Theorem get_temperature_missing_list (w : world) (payload : gmap string json)
    (label : string) :
  let req := mkRequest GET (urls_get_temperature env username password panel) [] [] None in
  session_of username password panel handle w ->
  transport env (length (requests w)) req
  = Return (aiohttp_response 200 (Return (JDict payload))) ->
  payload !! "temperatureComponentList" = None ->
  get_temperature env (Some label) w
  = (Raise (KeyError "temperatureComponentList"), sent req w)
  /\ get_temperature env None w = (Return (JDict payload), sent req w).
Proof.
  intros req Hs Htransport Hfield. subst req. split.
  - change (get_temperature env (Some label) w)
      with (run_operation env (GetTemperature (Some label)) w).
    handle_200 (GetTemperature (Some label))
      (mkRequest GET (urls_get_temperature env username password panel) [] [] None)
      Hs Htransport.
    unfold lift, py_getitem. by rewrite Hfield.
  - change (get_temperature env None w) with (run_operation env (GetTemperature None) w).
    by handle_200 (GetTemperature None)
      (mkRequest GET (urls_get_temperature env username password panel) [] [] None)
      Hs Htransport.
Qed.

Lemma select_serial_missing (label : string) (items : list json) :
  forallb is_dict items = true -> forallb has_serial items = false ->
  select_serial label items = Raise (KeyError "serialNo").
Proof.
  induction items as [|i items IH]; cbn [forallb select_serial]; [done|].
  intros [Hi Hrest]%Bool.andb_true_iff Hmiss.
  destruct i as [| | | | | |d]; try discriminate Hi.
  unfold has_serial in Hmiss. cbn [py_getitem] in *.
  destruct (d !! "serialNo") as [serial|]; [|done].
  cbn in Hmiss. by rewrite (IH Hrest Hmiss).
Qed.

(** X19: a reading without [serialNo] makes the filtered call fail with
    [KeyError], whether or not other readings carry the label; no partial
    list is returned. *)
Theorem get_temperature_missing_serial (w : world) (payload : gmap string json)
    (label : string) (items : list json) :
  let req := mkRequest GET (urls_get_temperature env username password panel) [] [] None in
  session_of username password panel handle w ->
  transport env (length (requests w)) req
  = Return (aiohttp_response 200 (Return (JDict payload))) ->
  payload !! "temperatureComponentList" = Some (JList items) ->
  forallb is_dict items = true -> forallb has_serial items = false ->
  get_temperature env (Some label) w = (Raise (KeyError "serialNo"), sent req w).
Proof.
  intros req Hs Htransport Hfield Hdicts Hmiss. subst req.
  change (get_temperature env (Some label) w)
    with (run_operation env (GetTemperature (Some label)) w).
  handle_200 (GetTemperature (Some label))
    (mkRequest GET (urls_get_temperature env username password panel) [] [] None)
    Hs Htransport.
  unfold lift, py_getitem. rewrite Hfield. cbn [py_iter].
  by rewrite (select_serial_missing label items Hdicts Hmiss).
Qed.

End CredentialOperations.

Section HistoryFacts.

Variable env : environment.
Variables (username password panel : pyval) (handle : nat).


Lemma fix_rows_app (rows1 rows2 : list json) (w : world) :
  fix_rows env (rows1 ++ rows2) w
  = match fix_rows env rows1 w with
    | (Return fixed1, w1) =>
        match fix_rows env rows2 w1 with
        | (Return fixed2, w2) => (Return (fixed1 ++ fixed2)%list, w2)
        | (Raise e, w2) => (Raise e, w2)
        end
    | (Raise e, w1) => (Raise e, w1)
    end.
Proof.
  revert w. induction rows1 as [|row rows1 IH]; intros w.
  - cbn [app fix_rows]. unfold ret. by destruct (fix_rows env rows2 w) as [[?|?] ?].
  - cbn [app fix_rows]. unfold bind, lift, ret.
    destruct (py_getitem row "time") as [time|]; [|done].
    destruct (fix_date_short env time w) as [[fixed|] w1]; [|done].
    destruct (py_setitem row "time" (JStr fixed)) as [row'|]; [|done].
    rewrite IH. destruct (fix_rows env rows1 w1) as [[fixed1|] w2]; [|done].
    by destruct (fix_rows env rows2 w2) as [[?|?] ?].
Qed.

Ltac handle_history offset Hs Htransport :=
  change (get_history env offset ?w) with (run_operation env (GetHistory offset) w);
  rewrite (run_operation_credential env _ _ _ _ (GetHistory offset)
             (mkRequest GET (urls_history env username password panel) []
                [("startIndex", offset)] None) _ Hs eq_refl), Htransport;
  cbn [response_handler]; unfold bind;
  match goal with
  | |- context [_validate_response env (aiohttp_response 200 ?b) ?w] =>
      rewrite (validate_response_200 env (aiohttp_response 200 b) "json" w eq_refl eq_refl);
      cbn [resp_json aiohttp_response]
  end.


(** X21: an empty [logs] list: the payload is returned as it came and the
    clock is not read. *)
Theorem get_history_empty_logs (offset : Z) (w : world) (payload : gmap string json) :
  let req := mkRequest GET (urls_history env username password panel) []
               [("startIndex", offset)] None in
  session_of username password panel handle w ->
  transport env (length (requests w)) req
  = Return (aiohttp_response 200 (Return (JDict payload))) ->
  payload !! "logs" = Some (JList []) ->
  get_history env offset w = (Return (JDict payload), sent req w).
Proof.
  intros req Hs Htransport Hlogs. subst req.
  handle_history offset Hs Htransport.
  unfold lift, py_getitem. rewrite Hlogs. cbn [py_iter fix_rows ret py_setitem].
  by rewrite insert_id.
Qed.

(** X22: a 200 payload without the key [logs] ends [get_history] in
    [KeyError]. *)
Theorem get_history_missing_logs (offset : Z) (w : world) (payload : gmap string json) :
  let req := mkRequest GET (urls_history env username password panel) []
               [("startIndex", offset)] None in
  session_of username password panel handle w ->
  transport env (length (requests w)) req
  = Return (aiohttp_response 200 (Return (JDict payload))) ->
  payload !! "logs" = None ->
  get_history env offset w = (Raise (KeyError "logs"), sent req w).
Proof.
  intros req Hs Htransport Hlogs. subst req.
  handle_history offset Hs Htransport.
  unfold lift, py_getitem. by rewrite Hlogs.
Qed.

(** X23: [get_history] stops at the first entry whose [time] is not
    converted: the call raises the error of that entry, the entries after
    it are not looked at (whatever they are) and the clock is where that
    entry left it. *)
Theorem get_history_stops_at_first_failure (offset : Z) (w w1 w2 : world)
    (payload entry : gmap string json) (before before' after : list json)
    (time : json) (e : exception) :
  let req := mkRequest GET (urls_history env username password panel) []
               [("startIndex", offset)] None in
  session_of username password panel handle w ->
  transport env (length (requests w)) req
  = Return (aiohttp_response 200 (Return (JDict payload))) ->
  payload !! "logs" = Some (JList (before ++ JDict entry :: after)) ->
  fix_rows env before (sent req w) = (Return before', w1) ->
  entry !! "time" = Some time ->
  fix_date_short env time w1 = (Raise e, w2) ->
  get_history env offset w = (Raise e, w2).
Proof.
  intros req Hs Htransport Hlogs Hbefore Htime Hfix. subst req.
  handle_history offset Hs Htransport.
  unfold lift, py_getitem. rewrite Hlogs. cbn [py_iter].
  rewrite fix_rows_app, Hbefore.
  by rewrite (fix_rows_cons_raise env entry after time e w1 w2 Htime Hfix).
Qed.

End HistoryFacts.

Section CookieOperations.

Variable env : environment.
Variables (giid vid : pyval) (handle : nat).

Ltac read_attrs Hs Hg Hv :=
  unfold vid_cookie, bind;
  rewrite (getattr_self_found _ _ _ Hs); cbn [client_method ret];
  rewrite ?(getattr_self_found _ _ _ Hg), ?(getattr_self_found _ _ _ Hv);
  cbn [ret]; unfold send.

(** X24: on a Session that has the attributes [_giid] and [_vid] (a caller
    must have set them), [set_arm_state] sends one PUT to the arm-state URL
    of the giid, with the headers Accept, Content-Type and the cookie
    [vid=<vid>] and the JSON body {"code": str(code), "state": state}, and
    returns what the validator makes of the response. *)
Theorem set_arm_state_request (code : pyval) (state : json) (w : world) :
  let req :=
    mkRequest PUT (urls_set_armstate env giid)
      [accept_header; ("Content-Type", "application/json");
       ("Cookie", "vid=" ++ py_str env vid)]
      []
      (Some (json_dumps env (JDict (<["code" := JStr (py_str env code)]>
                                     (<["state" := state]> ∅))))) in
  self_attrs w !! "session" = Some (VClient handle) ->
  self_attrs w !! "_giid" = Some giid ->
  self_attrs w !! "_vid" = Some vid ->
  set_arm_state env code state w
  = match transport env (length (requests w)) req with
    | Return r => _validate_response env r (sent req w)
    | Raise e => (Raise e, sent req w)
    end.
Proof.
  intros req Hs Hg Hv. subst req. unfold set_arm_state. read_attrs Hs Hg Hv.
  by destruct (transport env _ _).
Qed.

(** X25: under the same condition [get_lock_config] sends one GET to the
    lock-configuration URL of the giid and the device label, with the
    headers Accept and the cookie, and returns what the validator makes of
    the response. *)
Theorem get_lock_config_request (device_label : pyval) (w : world) :
  let req :=
    mkRequest GET (urls_lockconfig env giid device_label)
      [accept_header; ("Cookie", "vid=" ++ py_str env vid)] [] None in
  self_attrs w !! "session" = Some (VClient handle) ->
  self_attrs w !! "_giid" = Some giid ->
  self_attrs w !! "_vid" = Some vid ->
  get_lock_config env device_label w
  = match transport env (length (requests w)) req with
    | Return r => _validate_response env r (sent req w)
    | Raise e => (Raise e, sent req w)
    end.
Proof.
  intros req Hs Hg Hv. subst req. unfold get_lock_config. read_attrs Hs Hg Hv.
  by destruct (transport env _ _).
Qed.


End CookieOperations.

(** X27: no operation opens or closes a client: after any sequence of
    calls, [logout] among them, the number of clients opened is what it
    was; only [__init__] opens one. *)
Theorem operations_keep_clients (env : environment) (ops : list operation) (w : world) :
  clients (snd (run_operations env ops w)) = clients w.
Proof. by apply (keeps_run_operations clients env). Qed.

(** X28: only [get_arm_state] and [get_history] read the clock; every
    other operation leaves it unread, whatever the Session and the server
    are. *)
Theorem dateless_operations_keep_clock (env : environment) (op : operation) (w : world) :
  normalises_dates op = false ->
  clock_reads (snd (run_operation env op w)) = clock_reads w.
Proof.
  intros Hop. by apply (keeps_dateless_operation clock_reads env (fun _ _ => eq_refl) op Hop).
Qed.

(** ** The further properties on concrete Sessions *)

Lemma operation_sends_one_request_witness :
  session_of user secret panel_1 0 example_world
  /\ requests (snd (run_operation (history_env ["Today 14:30"]) (GetHistory 20)
                      example_world))
     = [mkRequest GET "/history" [] [("startIndex", 20)] None].
Proof.
  split; [exact example_world_session|].
  pose proof (operation_sends_one_request (history_env ["Today 14:30"])
                user secret panel_1 0 (GetHistory 20)
                (mkRequest GET "/history" [] [("startIndex", 20)] None) example_world
                example_world_session ltac:(by vm_compute)) as H.
  vm_compute in H. vm_compute. exact H.
Defined.

Lemma passthrough_returns_validated_witness :
  is_passthrough (LockDoorlock (VStr "L1") (VStr "1234")) = true
  /\ fst (run_operation lock_env (LockDoorlock (VStr "L1") (VStr "1234")) example_world)
     = Return lock_payload.
Proof.
  split; [reflexivity|].
  pose proof (passthrough_returns_validated lock_env user secret panel_1 0
                (LockDoorlock (VStr "L1") (VStr "1234"))
                (mkRequest GET "/lock" [] [] None)
                (aiohttp_response 200 (Return lock_payload)) example_world
                ltac:(by vm_compute) example_world_session
                ltac:(by vm_compute) ltac:(by vm_compute)) as H.
  rewrite H. by vm_compute.
Defined.

Lemma transport_error_propagates_witness :
  session_of user secret panel_1 0 example_world
  /\ run_operation offline_env GetEthernetStatus example_world
     = (Raise (ExternalError "ClientConnectorError" "offline"),
        sent (mkRequest GET "/ethernet" [] [] None) example_world).
Proof.
  split; [exact example_world_session|].
  apply (transport_error_propagates offline_env user secret panel_1 0 GetEthernetStatus
           (mkRequest GET "/ethernet" [] [] None) _ example_world example_world_session);
    by vm_compute.
Defined.

Lemma get_arm_state_missing_timeex_witness :
  no_timeex_payload !! "timeex" = None
  /\ fst (get_arm_state no_timeex_env example_world) = Raise (KeyError "timeex").
Proof.
  split; [by vm_compute|].
  pose proof (get_arm_state_missing_timeex no_timeex_env user secret panel_1 0
                example_world no_timeex_payload example_world_session
                ltac:(by vm_compute) ltac:(by vm_compute)) as H.
  by rewrite H.
Defined.

Lemma get_arm_state_propagates_witness :
  null_timeex_payload !! "timeex" = Some JNull
  /\ fst (get_arm_state null_timeex_env example_world)
     = Raise (TypeError "strptime() argument 1 must be str").
Proof.
  split; [by vm_compute|].
  pose proof (get_arm_state_propagates null_timeex_env user secret panel_1 0
                example_world
                (sent (mkRequest GET "/status" [] [] None) example_world)
                null_timeex_payload JNull
                (TypeError "strptime() argument 1 must be str")
                example_world_session
                ltac:(by vm_compute) ltac:(by vm_compute) ltac:(by vm_compute)) as H.
  by rewrite H.
Defined.

Lemma get_temperature_missing_list_witness :
  no_timeex_payload !! "temperatureComponentList" = None
  /\ fst (get_temperature no_timeex_env (Some "ABC123") example_world)
     = Raise (KeyError "temperatureComponentList")
  /\ fst (get_temperature no_timeex_env None example_world)
     = Return (JDict no_timeex_payload).
Proof.
  split; [by vm_compute|].
  pose proof (get_temperature_missing_list no_timeex_env user secret panel_1 0
              example_world no_timeex_payload "ABC123" example_world_session
              ltac:(by vm_compute) ltac:(by vm_compute)) as [Hsome Hnone].
  by rewrite Hsome, Hnone.
Defined.

Lemma get_temperature_missing_serial_witness :
  forallb is_dict unlabelled_readings = true
  /\ forallb has_serial unlabelled_readings = false
  /\ fst (get_temperature unlabelled_env (Some "ABC123") example_world)
     = Raise (KeyError "serialNo").
Proof.
  split; [by vm_compute|]. split; [by vm_compute|].
  pose proof (get_temperature_missing_serial unlabelled_env user secret panel_1 0
                example_world unlabelled_payload "ABC123" unlabelled_readings
                example_world_session
                ltac:(by vm_compute) ltac:(by vm_compute)
                ltac:(by vm_compute) ltac:(by vm_compute)) as H.
  by rewrite H.
Defined.


Lemma get_history_empty_logs_witness :
  session_of user secret panel_1 0 example_world
  /\ fst (get_history (history_env []) 0 example_world) = Return (history_payload []).
Proof.
  split; [exact example_world_session|].
  pose proof (get_history_empty_logs (history_env []) user secret panel_1 0 0
                example_world (<["logs" := JList []]> (∅ : gmap string json))
                example_world_session
                ltac:(by vm_compute) ltac:(by vm_compute)) as H.
  by rewrite H.
Defined.

Lemma get_history_missing_logs_witness :
  no_timeex_payload !! "logs" = None
  /\ fst (get_history no_timeex_env 0 example_world) = Raise (KeyError "logs").
Proof.
  split; [by vm_compute|].
  pose proof (get_history_missing_logs no_timeex_env user secret panel_1 0 0
                example_world no_timeex_payload example_world_session
                ltac:(by vm_compute) ltac:(by vm_compute)) as H.
  by rewrite H.
Defined.

Lemma get_history_stops_at_first_failure_witness :
  session_of user secret panel_1 0 example_world
  /\ get_history (history_env ["Today 14:30"; "not-a-date"; "12/25 08:15"]) 0 example_world
     = (Raise (UnboundLocalError "result"),
        tick (tick (sent (mkRequest GET "/history" [] [("startIndex", 0)] None)
                      example_world))).
Proof.
  split; [exact example_world_session|].
  apply (get_history_stops_at_first_failure
           (history_env ["Today 14:30"; "not-a-date"; "12/25 08:15"])
           user secret panel_1 0 0 example_world
           (tick (tick (sent (mkRequest GET "/history" [] [("startIndex", 0)] None)
                         example_world)))
           _
           (<["logs" := JList (log_entry <$> ["Today 14:30"; "not-a-date"; "12/25 08:15"])]>
              (∅ : gmap string json))
           (<["time" := JStr "not-a-date"]>
              (<["event" := JStr "armed"]> (∅ : gmap string json)))
           [log_entry "Today 14:30"] [log_entry "2024-03-05T14:30:00"]
           [log_entry "12/25 08:15"] (JStr "not-a-date") _ example_world_session);
    by vm_compute.
Defined.

Lemma set_arm_state_request_witness :
  self_attrs cookie_world !! "_giid" = Some (VStr "g1")
  /\ self_attrs cookie_world !! "_vid" = Some (VStr "v1")
  /\ set_arm_state lock_env (VStr "1234") (JStr "ARMED_AWAY") cookie_world
     = (Return lock_payload,
        sent (mkRequest PUT "/armstate"
                [accept_header; ("Content-Type", "application/json");
                 ("Cookie", "vid=v1")] [] (Some "{}")) cookie_world).
Proof.
  split; [by vm_compute|]. split; [by vm_compute|].
  pose proof (set_arm_state_request lock_env (VStr "g1") (VStr "v1") 0
                (VStr "1234") (JStr "ARMED_AWAY") cookie_world
                ltac:(by vm_compute) ltac:(by vm_compute) ltac:(by vm_compute)) as H.
  rewrite H. by vm_compute.
Defined.

Lemma get_lock_config_request_witness :
  self_attrs cookie_world !! "_giid" = Some (VStr "g1")
  /\ self_attrs cookie_world !! "_vid" = Some (VStr "v1")
  /\ get_lock_config lock_env (VStr "L1") cookie_world
     = (Return lock_payload,
        sent (mkRequest GET "/lockconfig" [accept_header; ("Cookie", "vid=v1")] [] None)
          cookie_world).
Proof.
  split; [by vm_compute|]. split; [by vm_compute|].
  pose proof (get_lock_config_request lock_env (VStr "g1") (VStr "v1") 0
                (VStr "L1") cookie_world
                ltac:(by vm_compute) ltac:(by vm_compute) ltac:(by vm_compute)) as H.
  rewrite H. by vm_compute.
Defined.


Lemma dateless_operations_keep_clock_witness :
  normalises_dates (GetTemperature (Some "ABC123")) = false
  /\ clock_reads (snd (run_operation temperature_env (GetTemperature (Some "ABC123"))
                         example_world))
     = clock_reads example_world.
Proof.
  split; [reflexivity|].
  by apply (dateless_operations_keep_clock temperature_env
              (GetTemperature (Some "ABC123")) example_world).
Defined.
